(** * Item-catalog backend (python/main.py): model and verified properties

    The program is a FastAPI application over one SQLite table [items] and a
    directory of image files.  It is embedded here as pure functions over an
    explicit world (file system, database, logs); exceptions are values of an
    inductive type and a handler is a state transformer that may raise. *)

From Stdlib Require Import ZArith List Bool Lia.
From Stdlib.Strings Require Import String Ascii Byte.
From stdpp Require Import base option gmap strings list fin_maps pretty.

Open Scope Z_scope.

(** ** Bytes *)

(** A Python [bytes] object. *)
Definition bytes := list byte.

Definition bytes_of_string (s : string) : bytes := list_byte_of_string s.
Definition string_of_bytes (b : bytes) : string := string_of_list_byte b.

Definition Z_of_byte (b : byte) : Z := Z.of_N (Byte.to_N b).

(** ** hashlib.sha256 (FIPS 180-4), on 32-bit words kept in [Z] *)

Module SHA256.

Definition w32 (x : Z) : Z := x mod 2 ^ 32.

Definition add32 (x y : Z) : Z := w32 (x + y).

Definition rotr (n x : Z) : Z :=
  Z.lor (Z.shiftr x n) (w32 (Z.shiftl x (32 - n))).

Definition not32 (x : Z) : Z := Z.lxor x 0xffffffff.

Definition Ch (x y z : Z) : Z :=
  Z.lxor (Z.land x y) (Z.land (not32 x) z).

Definition Maj (x y z : Z) : Z :=
  Z.lxor (Z.lxor (Z.land x y) (Z.land x z)) (Z.land y z).

Definition Sigma0 (x : Z) : Z :=
  Z.lxor (Z.lxor (rotr 2 x) (rotr 13 x)) (rotr 22 x).

Definition Sigma1 (x : Z) : Z :=
  Z.lxor (Z.lxor (rotr 6 x) (rotr 11 x)) (rotr 25 x).

Definition sigma0 (x : Z) : Z :=
  Z.lxor (Z.lxor (rotr 7 x) (rotr 18 x)) (Z.shiftr x 3).

Definition sigma1 (x : Z) : Z :=
  Z.lxor (Z.lxor (rotr 17 x) (rotr 19 x)) (Z.shiftr x 10).

(** The constants are derived as the standard defines them: the first 32
    bits of the fractional parts of the cube roots (for [K]) and of the square
    roots (for [H0]) of the first primes. *)
Definition is_prime (n : Z) : bool :=
  (1 <? n) && forallb (fun d => negb (n mod Z.of_nat d =? 0)) (seq 2 (Z.to_nat n - 2)).

Fixpoint primes_from (fuel count : nat) (n : Z) : list Z :=
  match fuel, count with
  | O, _ => []
  | _, O => []
  | S fuel', S count' =>
      if is_prime n then n :: primes_from fuel' count' (n + 1)
      else primes_from fuel' count (n + 1)
  end.

Definition first_primes (count : nat) : list Z := primes_from 400 count 2.

(** The largest [y] below [x + 2 ^ n] with [y ^ 3 <= target], bit by bit. *)
Fixpoint cbrt_bits (n : nat) (x target : Z) : Z :=
  match n with
  | O => x
  | S n' =>
      let y := x + 2 ^ Z.of_nat n' in
      if y * y * y <=? target then cbrt_bits n' y target
      else cbrt_bits n' x target
  end.

Definition frac_cbrt32 (p : Z) : Z := w32 (cbrt_bits 40 0 (p * 2 ^ 96)).

Definition frac_sqrt32 (p : Z) : Z := w32 (Z.sqrt (p * 2 ^ 64)).

Definition K : list Z := Eval vm_compute in map frac_cbrt32 (first_primes 64).

Definition H0 : list Z := Eval vm_compute in map frac_sqrt32 (first_primes 8).

(** Big-endian encoding of [x] on [n] bytes. *)
Fixpoint be_bytes (n : nat) (x : Z) : list Z :=
  match n with
  | O => []
  | S n' => (Z.shiftr x (8 * Z.of_nat n')) mod 256 :: be_bytes n' x
  end.

(** Padding: a 1 bit, zeros up to 56 mod 64, then the bit length on 64 bits. *)
Definition pad (msg : list Z) : list Z :=
  let len := Z.of_nat (length msg) in
  let zeros := Z.to_nat ((55 - len) mod 64) in
  msg ++ 0x80 :: repeat 0 zeros ++ be_bytes 8 (8 * len).

Fixpoint words_of_bytes (l : list Z) : list Z :=
  match l with
  | b0 :: b1 :: b2 :: b3 :: l' =>
      (Z.shiftl b0 24 + Z.shiftl b1 16 + Z.shiftl b2 8 + b3)
        :: words_of_bytes l'
  | _ => []
  end.

(** The message schedule, newest word first: [ws] holds W(t-1), W(t-2), ... *)
Definition next_word (ws : list Z) : Z :=
  add32 (add32 (sigma1 (nth 1 ws 0)) (nth 6 ws 0))
        (add32 (sigma0 (nth 14 ws 0)) (nth 15 ws 0)).

Fixpoint extend (n : nat) (ws : list Z) : list Z :=
  match n with
  | O => ws
  | S n' => extend n' (next_word ws :: ws)
  end.

Definition schedule (block : list Z) : list Z :=
  rev (extend 48 (rev block)).

Record regs := Regs { ra : Z; rb : Z; rc : Z; rd : Z;
                      re : Z; rf : Z; rg : Z; rh : Z }.

Definition round (s : regs) (kw : Z * Z) : regs :=
  let '(k, w) := kw in
  let t1 := add32 (add32 (add32 (rh s) (Sigma1 (re s)))
                         (add32 (Ch (re s) (rf s) (rg s)) k)) w in
  let t2 := add32 (Sigma0 (ra s)) (Maj (ra s) (rb s) (rc s)) in
  Regs (add32 t1 t2) (ra s) (rb s) (rc s) (add32 (rd s) t1) (re s) (rf s) (rg s).

Definition regs_of_list (h : list Z) : regs :=
  Regs (nth 0 h 0) (nth 1 h 0) (nth 2 h 0) (nth 3 h 0)
       (nth 4 h 0) (nth 5 h 0) (nth 6 h 0) (nth 7 h 0).

Definition list_of_regs (s : regs) : list Z :=
  [ra s; rb s; rc s; rd s; re s; rf s; rg s; rh s].

Definition compress (h : list Z) (block : list Z) : list Z :=
  let s := fold_left round (combine K (schedule block)) (regs_of_list h) in
  map (fun p => add32 (fst p) (snd p)) (combine h (list_of_regs s)).

(** One 16-word block per step; [n] bounds the number of blocks. *)
Fixpoint blocks (n : nat) (h : list Z) (ws : list Z) : list Z :=
  match n with
  | O => h
  | S n' =>
      match ws with
      | [] => h
      | _ => blocks n' (compress h (firstn 16 ws)) (skipn 16 ws)
      end
  end.

Definition digest_words (msg : list Z) : list Z :=
  let ws := words_of_bytes (pad msg) in
  blocks (length ws) H0 ws.

Definition digest (msg : bytes) : list Z :=
  flat_map (be_bytes 4) (digest_words (map Z_of_byte msg)).

Definition hex_digit (d : Z) : ascii :=
  ascii_of_nat (Z.to_nat (if d <? 10 then 48 + d else 87 + d)).

Fixpoint hex (l : list Z) : string :=
  match l with
  | [] => EmptyString
  | b :: l' => String (hex_digit (b / 16)) (String (hex_digit (b mod 16)) (hex l'))
  end.

(** [hashlib.sha256(data).hexdigest()]: 64 lowercase hexadecimal digits. *)
Definition hexdigest (msg : bytes) : string := hex (digest msg).

End SHA256.

(** ** Python exceptions and results *)

Inductive exn :=
| FileNotFoundError (path : string)
| IsADirectoryError (path : string)
| ValueError (msg : string)
| IndexError (msg : string)
| OperationalError (msg : string)
| RuntimeError (msg : string)
| HTTPException (status_code : Z) (detail : string).

Inductive result (A : Type) :=
| Ok (a : A)
| Raise (e : exn).

Arguments Ok {A} a.
Arguments Raise {A} e.

(** ** SQLite values and the [items] table *)

(** What the [sqlite3] module hands back for a column: [None], [int], [str]
    or [bytes].  REAL values are outside the model. *)
Inductive sqlval :=
| SqlNull
| SqlInt (z : Z)
| SqlText (s : string)
| SqlBlob (b : bytes).

(** A stored row of [items(id, name, category, image)]. *)
Definition row : Type := sqlval * sqlval * sqlval * sqlval.

Definition row_id (r : row) : sqlval := r.1.1.1.
Definition row_name (r : row) : sqlval := r.1.1.2.

(** The Python tuple that [SELECT *] yields for a stored row. *)
Definition tuple_of_row {V : Type} (r : V * V * V * V) : list V :=
  [r.1.1.1; r.1.1.2; r.1.2; r.2].

(** ** The world a request runs in *)

(** Files are named by their path as it is written, so two spellings of one
    file (images/x and ./images/x) are two names here.  The database file
    ../db/item.db and its journal are not among [fs_files]: the database is
    [db_items], where [None] stands for every state without the table (no
    file, the empty file that a first connection creates, or a database that
    has no such table). *)
Record world := World {
  fs_files : gmap string bytes;  (* regular files other than the database, by path as written *)
  fs_dirs : gset string;         (* directories *)
  db_items : option (list row);  (* table items of ../db/item.db; None: no such table *)
  log : list string;             (* records emitted by the uvicorn logger *)
  stdout : list string           (* the texts printed, one entry per call of print *)
}.

Definition with_files (f : gmap string bytes) (w : world) : world :=
  World f (fs_dirs w) (db_items w) (log w) (stdout w).

Definition with_items (t : option (list row)) (w : world) : world :=
  World (fs_files w) (fs_dirs w) t (log w) (stdout w).

Definition with_log (l : list string) (w : world) : world :=
  World (fs_files w) (fs_dirs w) (db_items w) l (stdout w).

Definition with_stdout (l : list string) (w : world) : world :=
  World (fs_files w) (fs_dirs w) (db_items w) (log w) l.

(** A computation reads and updates the world and returns or raises; the
    world reached when an exception is raised is kept. *)
Definition M (A : Type) : Type := world -> result A * world.

#[global] Instance M_ret : MRet M := fun A a w => (Ok a, w).

#[global] Instance M_bind : MBind M := fun A B k m w =>
  match m w with
  | (Ok a, w') => k a w'
  | (Raise e, w') => (Raise e, w')
  end.

Definition raise {A : Type} (e : exn) : M A := fun w => (Raise e, w).

(** ** Strings and paths *)

(** [s.endswith(suffix)] *)
Fixpoint endswith (s suffix : string) : bool :=
  String.eqb s suffix ||
  match s with
  | EmptyString => false
  | String _ s' => endswith s' suffix
  end.

(** [s.startswith(prefix)] *)
Definition startswith (s pre : string) : bool := String.prefix pre s.

(** The directory part of a path: everything before the last slash, if any. *)
Fixpoint dirname (p : string) : option string :=
  match p with
  | EmptyString => None
  | String c p' =>
      match dirname p' with
      | Some d => Some (String c d)
      | None => if Ascii.eqb c "/" then Some EmptyString else None
      end
  end.

(** [a / b] of pathlib, for [a] an absolute directory and [b] one component. *)
Definition joinpath (a b : string) : string :=
  if startswith b "/" then b
  else if endswith a "/" then a +:+ b
  else a +:+ "/" +:+ b.

(** ** File system primitives *)

Definition has_nul (b : bytes) : bool := existsb (Byte.eqb x00) b.

(** [open(path, 'rb')] followed by [read()], for a path given as [bytes]. *)
Definition open_rb (path : bytes) : M bytes := fun w =>
  if has_nul path then (Raise (ValueError "embedded null byte"), w)
  else
    let p := string_of_bytes path in
    match fs_files w !! p with
    | Some data => (Ok data, w)
    | None =>
        if bool_decide (p ∈ fs_dirs w) then (Raise (IsADirectoryError p), w)
        else (Raise (FileNotFoundError p), w)
    end.

Definition parent_exists (p : string) (w : world) : bool :=
  match dirname p with
  | None => true
  | Some EmptyString => true
  | Some d => bool_decide (d ∈ fs_dirs w)
  end.

(** [open(path, mode="wb")], [write(data)], [close()]: the file is created or
    truncated and then holds exactly [data].  The file is the one named
    [path] as written; what becomes of another spelling of the same file is
    not described. *)
Definition open_wb (path : string) (data : bytes) : M unit := fun w =>
  if bool_decide (path ∈ fs_dirs w) then (Raise (IsADirectoryError path), w)
  else if negb (parent_exists path w) then (Raise (FileNotFoundError path), w)
  else (Ok tt, with_files (<[path := data]> (fs_files w)) w).

(** [Path.exists()] *)
Definition path_exists (p : string) : M bool := fun w =>
  (Ok (bool_decide (is_Some (fs_files w !! p)) || bool_decide (p ∈ fs_dirs w)), w).

(** ** Logging and printing *)

Definition DEBUG : Z := 10.
Definition INFO : Z := 20.

(** [logger.level = logging.INFO] *)
Definition logger_level : Z := INFO.

Definition logger_log (level : Z) (msg : string) : M unit := fun w =>
  if logger_level <=? level then (Ok tt, with_log (log w ++ [msg]) w)
  else (Ok tt, w).

Definition logger_info : string -> M unit := logger_log INFO.
Definition logger_debug : string -> M unit := logger_log DEBUG.

(** [print(text)]: one entry per call; the text may hold line feeds, and a
    line feed follows it on the terminal. *)
Definition print (text : string) : M unit := fun w =>
  (Ok tt, with_stdout (stdout w ++ [text]) w).

(** ** The LIKE operator of SQLite *)

(** The operands are read as [patternCompare] reads them: as C strings, so
    up to the first zero byte, one character at a time as [sqlite3Utf8Read]
    decodes it.  The limit on the length of a pattern (50000 bytes, beyond
    which the statement fails) is not modelled. *)

(** A UTF-8 continuation byte, 10xxxxxx. *)
Definition is_continuation (c : ascii) : bool :=
  (N.land (N_of_ascii c) 0xc0 =? 0x80)%N.

(** [sqlite3Utf8Trans1]: the payload bits of a lead byte 0xc0..0xff. *)
Definition utf8_trans1 (b : N) : N :=
  (if b <? 0xe0 then N.land b 0x1f
   else if b <? 0xf0 then N.land b 0x0f
   else if b <? 0xf8 then N.land b 0x07
   else if b <? 0xfc then N.land b 0x03
   else if b <? 0xfe then N.land b 0x01
   else 0)%N.

(** The value of a character that began with a lead byte: overlong forms,
    surrogates, U+FFFE and U+FFFF are read as U+FFFD. *)
Definition utf8_final (c : N) : N :=
  (if (c <? 0x80) || (N.land c 0xfffff800 =? 0xd800) || (N.land c 0xfffffffe =? 0xfffe)
   then 0xfffd else c)%N.

(** The characters of a text up to its first zero byte.  [pending] is the
    value gathered so far of a character whose lead byte has been read; every
    continuation byte that follows is added to it, on 32 bits. *)
Fixpoint decode_from (pending : option N) (s : string) : list N :=
  match s with
  | EmptyString =>
      match pending with
      | Some c => [utf8_final c]
      | None => []
      end
  | String ch s' =>
      let b := N_of_ascii ch in
      match pending with
      | Some c =>
          if is_continuation ch
          then decode_from (Some ((c * 64 + N.land b 0x3f) mod 2 ^ 32)%N) s'
          else utf8_final c ::
               (if (b =? 0)%N then []
                else if (0xc0 <=? b)%N then decode_from (Some (utf8_trans1 b)) s'
                else b :: decode_from None s')
      | None =>
          if (b =? 0)%N then []
          else if (0xc0 <=? b)%N then decode_from (Some (utf8_trans1 b)) s'
          else b :: decode_from None s'
      end
  end.

Definition utf8_chars (s : string) : list N := decode_from None s.

(** [sqlite3Tolower]: only the letters A to Z are folded. *)
Definition lower_code (c : N) : N :=
  (if (65 <=? c) && (c <=? 90) then c + 32 else c)%N.

Definition code_eq_nocase (c c2 : N) : bool :=
  ((c =? c2) || ((lower_code c =? lower_code c2) && (c <? 128) && (c2 <? 128)))%N.

(** [like_chars p s]: the characters [s] match the pattern [p].  A percent
    sign (37) matches any run of characters, an underscore (95) exactly one
    character, any other character itself up to ASCII case.  There is no
    escape character. *)
Fixpoint like_chars (p s : list N) {struct p} : bool :=
  match p with
  | [] =>
      match s with
      | [] => true
      | _ :: _ => false
      end
  | c :: p' =>
      if (c =? 37)%N then
        (fix star (s : list N) : bool :=
           like_chars p' s ||
           match s with
           | [] => false
           | _ :: s' => star s'
           end) s
      else
        match s with
        | [] => false
        | c2 :: s' => (code_eq_nocase c c2 || (c =? 95)%N) && like_chars p' s'
        end
  end.

Definition like (p s : string) : bool := like_chars (utf8_chars p) (utf8_chars s).

(** The text LIKE compares: numbers are rendered in decimal, NULL has none.
    A BLOB has none either, as in builds of SQLite with
    SQLITE_LIKE_DOESNT_MATCH_BLOBS; other builds compare its bytes as text,
    and the properties that depend on it are stated for names that are not
    BLOBs. *)
Definition sql_text (v : sqlval) : option string :=
  match v with
  | SqlNull => None
  | SqlInt z => Some (pretty z)
  | SqlText s => Some s
  | SqlBlob _ => None
  end.

(** [x LIKE pattern] as a WHERE condition: NULL on either side is not true. *)
Definition like_op (x pattern : sqlval) : bool :=
  match sql_text pattern, sql_text x with
  | Some p, Some s => like p s
  | _, _ => false
  end.

(** ** Storage accessor: one connection, one statement *)

Definition no_such_table : exn := OperationalError "no such table: items".

(** [SELECT * FROM items;] with [fetchall()].  Without the table the
    statement fails; a connection to a missing database file leaves an empty
    one behind, which is still [db_items = None] and no entry of [fs_files]. *)
Definition select_all : M (list (list sqlval)) := fun w =>
  match db_items w with
  | Some t => (Ok (map tuple_of_row t), w)
  | None => (Raise no_such_table, w)
  end.

(** [SELECT * FROM items WHERE name LIKE ? ;] with [fetchall()]; without the
    table, as for [select_all]. *)
Definition select_like (keyword : sqlval) : M (list (list sqlval)) := fun w =>
  match db_items w with
  | Some t =>
      (Ok (map tuple_of_row (filter (fun r => like_op (row_name r) keyword = true) t)), w)
  | None => (Raise no_such_table, w)
  end.

(** [INSERT INTO items(id,name,category,image) VALUES(?,?,?,?);] and commit.
    The bound values are stored as they are given.  The columns name,
    category and image are declared [string], which gives them NUMERIC
    affinity: a text that spells a number is stored as that number.  Such a
    text holds a digit, and the properties that speak of the stored name or
    category are stated for texts without one; the image name ends in .jpg
    and is never a number. *)
Definition add_sql (id : Z) (name category image_name : string) : M unit := fun w =>
  match db_items w with
  | Some t =>
      (Ok tt,
       with_items (Some (t ++ [(SqlInt id, SqlText name, SqlText category, SqlText image_name)])) w)
  | None => (Raise no_such_table, w)
  end.

(** ** Row mapper *)

Section RowMapper.

Context {V : Type}.

(** [collections.OrderedDict] with string keys, in insertion order. *)
Definition odict : Type := list (string * V).

(** [d[k] = v] *)
Fixpoint od_set (d : odict) (k : string) (v : V) : odict :=
  match d with
  | [] => [(k, v)]
  | (k', v') :: d' =>
      if String.eqb k' k then (k', v) :: d' else (k', v') :: od_set d' k v
  end.

(** [row[i]] on a tuple *)
Definition getitem (r : list V) (i : nat) : result V :=
  match r !! i with
  | Some v => Ok v
  | None => Raise (IndexError "tuple index out of range")
  end.

Definition row_dict (r : list V) : result odict :=
  let d := [] in
  match getitem r 1 with
  | Raise e => Raise e
  | Ok name =>
      let d := od_set d "name" name in
      match getitem r 2 with
      | Raise e => Raise e
      | Ok category =>
          let d := od_set d "category" category in
          match getitem r 3 with
          | Raise e => Raise e
          | Ok image => Ok (od_set d "image" image)
          end
      end
  end.

Fixpoint db_toList_from (objects_list : list odict) (items : list (list V))
  : result (list odict) :=
  match items with
  | [] => Ok objects_list
  | r :: items' =>
      match row_dict r with
      | Ok d => db_toList_from (objects_list ++ [d]) items'
      | Raise e => Raise e
      end
  end.

Definition db_toList (items : list (list V)) : result (list odict) :=
  db_toList_from [] items.

End RowMapper.

Arguments odict V : clear implicits.

(** A pure step that may raise, run inside a handler. *)
Definition lift {A : Type} (r : result A) : M A := fun w => (r, w).

(** ** Endpoints *)

(** What a handler returns. *)
Inductive pyresp :=
| Items (content : list (odict sqlval))  (* {"items": content} *)
| Message (s : string)                   (* {"message": s} *)
| FileResponse (path : string).

Definition image_toHash (image : bytes) : M string :=
  data ← open_rb image;
  let sha256 := SHA256.hexdigest data in
  print ("SHA256ハッシュ値：" +:+ String "010" (" " +:+ sha256)) ;;
  mret sha256.

Definition root : M pyresp := mret (Message "Hello, world!").

Definition show_item : M pyresp :=
  items ← select_all;
  content ← lift (db_toList items);
  mret (Items content).

(** [randint] is the value drawn by [random.randint(1,100)]. *)
Definition add_item (name category : string) (image : bytes) (randint : Z)
  : M pyresp :=
  digest ← image_toHash image;
  let image_name := digest +:+ ".jpg" in
  let file_location := "images/" +:+ image_name in
  open_wb file_location image ;;
  logger_info ("Receive item: " +:+ name) ;;
  logger_info ("Receive item: " +:+ category) ;;
  logger_info ("Receive item: " +:+ image_name) ;;
  let id := randint in
  add_sql id name category image_name ;;
  mret (Message ("item received: " +:+ name)).

(** The query parameter [keyword] defaults to [None], bound as NULL. *)
Definition search_item (keyword : option string) : M pyresp :=
  let param := match keyword with Some k => SqlText k | None => SqlNull end in
  items ← select_like param;
  content ← lift (db_toList items);
  mret (Items content).

Section StaticImages.

(** The resolved directory that holds main.py. *)
Variable here : string.

Definition images : string := joinpath here "image".

Definition get_image (items_image : string) : M pyresp :=
  let image := joinpath images items_image in
  if negb (endswith items_image ".jpg") then
    raise (HTTPException 400 "Image path does not end with .jpg")
  else
    found ← path_exists image;
    image ← (if negb found then
               logger_debug ("Image not found: " +:+ image) ;;
               mret (joinpath images "default.jpg")
             else mret image);
    mret (FileResponse image).

End StaticImages.

(** ** From a handler's outcome to the HTTP response *)

Inductive payload :=
| JItems (content : list (odict sqlval))  (* {"items": [...]} *)
| JMessage (s : string)                   (* {"message": s} *)
| JDetail (s : string)                    (* {"detail": s} *)
| Raw (b : bytes)                         (* the bytes of a file *)
| Plain (s : string).

Record http_response := Response { status : Z; body : payload }.

Definition internal_server_error : http_response :=
  Response 500 (Plain "Internal Server Error").

(** The framework's part: a returned value is sent with status 200, a file
    response streams the file it names, an [HTTPException] carries its own
    status and anything else raised is a server error. *)
Definition respond (out : result pyresp * world) : http_response :=
  match out with
  | (Ok (Items content), _) => Response 200 (JItems content)
  | (Ok (Message s), _) => Response 200 (JMessage s)
  | (Ok (FileResponse p), w) =>
      match fs_files w !! p with
      | Some data => Response 200 (Raw data)
      | None => internal_server_error
      end
  | (Raise (HTTPException code detail), _) => Response code (JDetail detail)
  | (Raise _, _) => internal_server_error
  end.

(** One request: the response sent and the world left behind. *)
Definition serve (h : M pyresp) (w : world) : http_response * world :=
  let out := h w in (respond out, out.2).

Definition GET_items (w : world) : http_response := (serve show_item w).1.

Definition GET_search (keyword : option string) (w : world) : http_response :=
  (serve (search_item keyword) w).1.

Definition POST_items (name category : string) (image : bytes) (randint : Z)
  (w : world) : http_response * world :=
  serve (add_item name category image randint) w.

Definition GET_image (here items_image : string) (w : world) : http_response :=
  (serve (get_image here items_image) w).1.

(** ** Route registration at import time *)

Record route := Route { r_method : string; r_path : string; r_endpoint : string }.

(** The FastAPI objects created so far, by address, and the object the global
    name [app] is bound to.  Only routes the program registers are recorded. *)
Record module_state := ModuleState {
  heap : list (list route);
  app : option nat
}.

Inductive stmt :=
| NewApp                                      (* app = FastAPI() *)
| Def (decorators : list (string * string)) (name : string).
                       (* a decorated def: (method, path) from top to bottom *)

Definition register (name : string) (d : string * string) (m : module_state)
  : module_state :=
  match app m with
  | Some a => ModuleState (alter (fun rs => rs ++ [Route d.1 d.2 name]) a (heap m)) (app m)
  | None => m
  end.

(** Decorators are applied from the one nearest to the def upwards. *)
Definition exec (m : module_state) (s : stmt) : module_state :=
  match s with
  | NewApp => ModuleState (heap m ++ [[]]) (Some (length (heap m)))
  | Def decorators name => foldr (register name) m decorators
  end.

Definition main_py : list stmt :=
  [ NewApp;
    Def [("POST", "/files/")] "create_file";
    Def [("POST", "/uploadfile/")] "create_upload_file";
    NewApp;
    Def [("GET", "/")] "root";
    Def [("GET", "/items")] "show_item";
    Def [("POST", "/items")] "add_item";
    Def [("GET", "/search")] "search_item";
    Def [("GET", "/item/{items_id}"); ("GET", "/image/{items_image}")] "get_image" ].

Definition imported : module_state := foldl exec (ModuleState [] None) main_py.

(** The application the server runs is what [app] names after the import. *)
Definition served_routes : list route :=
  match app imported with
  | Some a => default [] (heap imported !! a)
  | None => []
  end.

(** Path segments between slashes. *)
Fixpoint split_path (acc p : string) : list string :=
  match p with
  | EmptyString => [acc]
  | String c p' =>
      if Ascii.eqb c "/" then acc :: split_path EmptyString p'
      else split_path (acc +:+ String c EmptyString) p'
  end.

Definition is_param (seg : string) : bool :=
  startswith seg "{" && endswith seg "}".

Definition segment_matches (template seg : string) : bool :=
  if is_param template then negb (String.eqb seg EmptyString)
  else String.eqb template seg.

Fixpoint segments_match (ts ss : list string) : bool :=
  match ts, ss with
  | [], [] => true
  | t :: ts', s :: ss' => segment_matches t s && segments_match ts' ss'
  | _, _ => false
  end.

Definition path_matches (template p : string) : bool :=
  segments_match (split_path EmptyString template) (split_path EmptyString p).

Inductive dispatched :=
| Handles (endpoint : string)
| MethodNotAllowed
| NotFound.

(** The first route matching path and method handles the request; a path that
    matches under other methods only is refused with 405. *)
Fixpoint dispatch (routes : list route) (method p : string) : dispatched :=
  match routes with
  | [] => NotFound
  | r :: routes' =>
      if path_matches (r_path r) p then
        if String.eqb (r_method r) method then Handles (r_endpoint r)
        else match dispatch routes' method p with
             | Handles e => Handles e
             | _ => MethodNotAllowed
             end
      else dispatch routes' method p
  end.

(** ** What the claims are compared with *)

(** The exposed field set of a stored row: name, category, image, in that
    order; the id is left out. *)
Definition exposed_fields {V : Type} (r : V * V * V * V) : odict V :=
  [("name", r.1.1.2); ("category", r.1.2); ("image", r.2)].



(** What LIKE compares of a text when the pattern has no wildcard: its
    characters up to the first zero byte, ASCII letters folded. *)
Definition like_key (s : string) : list N := map lower_code (utf8_chars s).





Definition is_digit (c : ascii) : bool :=
  ((48 <=? N_of_ascii c) && (N_of_ascii c <=? 57))%N.

Fixpoint has_digit (s : string) : bool :=
  match s with
  | EmptyString => false
  | String c s' => is_digit c || has_digit s'
  end.

(** A text of ASCII characters other than the zero character. *)
Fixpoint plain (s : string) : bool :=
  match s with
  | EmptyString => true
  | String c s' => (0 <? N_of_ascii c)%N && (N_of_ascii c <? 128)%N && plain s'
  end.

Fixpoint codes (s : string) : list N :=
  match s with
  | EmptyString => []
  | String c s' => N_of_ascii c :: codes s'
  end.

#[global] Instance byte_eq_dec : EqDecision byte := Byte.byte_eq_dec.

#[global] Instance sqlval_eq_dec : EqDecision sqlval.
Proof. solve_decision. Defined.


(** Search as equality of the name's text with the keyword in LIKE's
    comparison without wildcards: up to the first zero byte and up to the case
    of ASCII letters. *)
Definition search_nocase (k : string) (t : list row) : list (odict sqlval) :=
  map exposed_fields
    (filter (fun r => like_key <$> sql_text (row_name r) = Some (like_key k)) t).

(** [Path.exists()] as a test on the world. *)
Definition exists_at (w : world) (p : string) : bool :=
  bool_decide (is_Some (fs_files w !! p)) || bool_decide (p ∈ fs_dirs w).

Fixpoint is_segment (s : string) : bool :=
  match s with
  | EmptyString => true
  | String c s' => negb (Ascii.eqb c "/") && is_segment s'
  end.

(** A lowercase hexadecimal digit. *)
Definition is_hex_lower (c : ascii) : bool :=
  let n := N_of_ascii c in
  ((48 <=? n) && (n <=? 57) || (97 <=? n) && (n <=? 102))%N.

Fixpoint all_chars (P : ascii -> bool) (s : string) : bool :=
  match s with
  | EmptyString => true
  | String c s' => P c && all_chars P s'
  end.

(** Segments put back together with slashes between them. *)
Fixpoint join_slash (segs : list string) : string :=
  match segs with
  | [] => EmptyString
  | x :: rest =>
      match rest with
      | [] => x
      | _ :: _ => x +:+ "/" +:+ join_slash rest
      end
  end.

(** The three fields of a tuple with at least four components. *)
Definition fields_of_tuple {V : Type} (r : list V) (d : odict V) : Prop :=
  exists n c im : V,
    r !! 1%nat = Some n /\ r !! 2%nat = Some c /\ r !! 3%nat = Some im
    /\ d = [("name", n); ("category", c); ("image", im)].


(** * Properties *)

(** ** hashlib.sha256 test vectors *)

Example sha256_constants :
  length SHA256.K = 64%nat /\ length SHA256.H0 = 8%nat
  /\ nth 0 SHA256.K 0 = 0x428a2f98 /\ nth 63 SHA256.K 0 = 0xc67178f2
  /\ nth 0 SHA256.H0 0 = 0x6a09e667 /\ nth 7 SHA256.H0 0 = 0x5be0cd19.
Proof. repeat split; reflexivity. Qed.

Example sha256_empty :
  SHA256.hexdigest [] =
  "e3b0c44298fc1c149afbf4c8996fb92427ae41e4649b934ca495991b7852b855".
Proof. vm_compute. reflexivity. Qed.

Example sha256_abc :
  SHA256.hexdigest (bytes_of_string "abc") =
  "ba7816bf8f01cfea414140de5dae2223b00361a396177a9cb410ff61f20015ad".
Proof. vm_compute. reflexivity. Qed.

(** A message of 56 bytes needs a second block. *)
Example sha256_two_blocks :
  SHA256.hexdigest
    (bytes_of_string "abcdbcdecdefdefgefghfghighijhijkijkljklmklmnlmnomnopnopq") =
  "248d6a61d20638b8e5c026930c3e6039a33ce45964ff2167f6ecedd419db06c1".
Proof. vm_compute. reflexivity. Qed.

(** ** Row mapper *)

Section RowMapperFacts.

Context {V : Type}.

Lemma row_dict_tuple (r : V * V * V * V) :
  row_dict (tuple_of_row r) = Ok (exposed_fields r).
Proof. destruct r as [[[i n] c] im]. reflexivity. Qed.

Lemma db_toList_from_rows (rows : list (V * V * V * V)) :
  forall acc,
    db_toList_from acc (map tuple_of_row rows) = Ok (acc ++ map exposed_fields rows).
Proof.
  induction rows as [|r rows IH]; intros acc.
  - simpl. by rewrite app_nil_r.
  - cbn [map db_toList_from].
    rewrite row_dict_tuple, IH, <- app_assoc. reflexivity.
Qed.

Lemma db_toList_rows (rows : list (V * V * V * V)) :
  db_toList (map tuple_of_row rows) = Ok (map exposed_fields rows).
Proof. unfold db_toList. by rewrite db_toList_from_rows. Qed.

(** A tuple with fewer than four components makes the mapper raise. *)
Lemma row_dict_short (r : list V) :
  (length r < 4)%nat -> exists e, row_dict r = Raise e.
Proof.
  intros Hlen. destruct r as [|a [|b [|c [|d r]]]]; simpl in Hlen; try lia;
    unfold row_dict; simpl; eauto.
Qed.

End RowMapperFacts.

(** C8: on a sequence of 4-tuples (id, name, category, image) the row mapper
    returns a sequence of the same length whose i-th element is the ordered
    map with exactly the keys name, category, image, in that order, bound to
    the 2nd, 3rd and 4th components of the i-th row; the id is dropped and no
    row is filtered or changed. *)
Theorem db_toList_exposes_rows (V : Type) (rows : list (V * V * V * V)) :
  exists out : list (odict V),
    db_toList (map tuple_of_row rows) = Ok out
    /\ length out = length rows
    /\ forall i : nat,
         out !! i =
         (fun r => [("name", r.1.1.2); ("category", r.1.2); ("image", r.2)])
           <$> rows !! i.
Proof.
  exists (map exposed_fields rows). split; [apply db_toList_rows|].
  split; [apply length_map|].
  intros i. rewrite list_lookup_fmap. reflexivity.
Qed.

(** ** The list and search handlers on an existing table *)

Lemma show_item_run (w : world) (t : list row) :
  db_items w = Some t ->
  show_item w = (Ok (Items (map exposed_fields t)), w).
Proof.
  intros Ht. unfold show_item, mbind, M_bind, select_all, lift.
  rewrite Ht, db_toList_rows. reflexivity.
Qed.

Lemma search_item_run (keyword : option string) (w : world) (t : list row) :
  db_items w = Some t ->
  search_item keyword w =
  (Ok (Items (map exposed_fields
                (filter (fun r => like_op (row_name r)
                                    (match keyword with
                                     | Some k => SqlText k
                                     | None => SqlNull
                                     end) = true) t))), w).
Proof.
  intros Ht. unfold search_item, mbind, M_bind, select_like, lift.
  rewrite Ht, db_toList_rows. reflexivity.
Qed.

(** Without the table both handlers raise and the client gets a 500. *)
Lemma GET_items_no_table (w : world) :
  db_items w = None -> GET_items w = internal_server_error.
Proof.
  intros Ht. unfold GET_items, serve, show_item, mbind, M_bind, select_all.
  rewrite Ht. reflexivity.
Qed.

Lemma GET_items_ok (w : world) (t : list row) :
  db_items w = Some t ->
  GET_items w = Response 200 (JItems (map exposed_fields t)).
Proof. intros Ht. unfold GET_items, serve. by rewrite (show_item_run w t Ht). Qed.

Lemma GET_search_ok (keyword : option string) (w : world) (t : list row) :
  db_items w = Some t ->
  GET_search keyword w =
  Response 200
    (JItems (map exposed_fields
               (filter (fun r => like_op (row_name r)
                                   (match keyword with
                                    | Some k => SqlText k
                                    | None => SqlNull
                                    end) = true) t))).
Proof.
  intros Ht. unfold GET_search, serve. by rewrite (search_item_run keyword w t Ht).
Qed.

(** The empty table lists as no items. *)
Lemma GET_items_empty (w : world) :
  db_items w = Some [] -> GET_items w = Response 200 (JItems []).
Proof. intros Ht. by rewrite (GET_items_ok w [] Ht). Qed.

(** ** Responses do not depend on the id column *)





(** ** Search without a keyword *)

Lemma like_op_null (x : sqlval) : like_op x SqlNull = false.
Proof. reflexivity. Qed.

Lemma filter_like_null (t : list row) :
  filter (fun r => like_op (row_name r) SqlNull = true) t = [].
Proof.
  induction t as [|r t IH]; [reflexivity|].
  rewrite filter_cons. destruct (decide _) as [Hd|_]; [|exact IH].
  rewrite like_op_null in Hd. discriminate.
Qed.

(** C6: GET /search without a keyword binds NULL as the pattern; on an
    existing items table the LIKE match selects no row, whatever the table
    holds, and the response is 200 with body {"items": []}. *)
Theorem search_without_keyword (w : world) (t : list row) :
  db_items w = Some t ->
  GET_search None w = Response 200 (JItems []).
Proof.
  intros Ht. rewrite (GET_search_ok None w t Ht), filter_like_null. reflexivity.
Qed.

Lemma search_without_keyword_witness :
  GET_search None
    (World ∅ ∅ (Some [(SqlInt 5, SqlText "pen", SqlText "desk", SqlText "a.jpg")]) [] [])
  = Response 200 (JItems []).
Proof.
  apply (search_without_keyword _
           [(SqlInt 5, SqlText "pen", SqlText "desk", SqlText "a.jpg")]).
  reflexivity.
Defined.

(** ** LIKE on a pattern without wildcards *)

Lemma ascii_eqb_code (a b : ascii) :
  Ascii.eqb a b = (N_of_ascii a =? N_of_ascii b)%N.
Proof.
  destruct (Ascii.eqb_spec a b) as [->|Hne].
  - by rewrite N.eqb_refl.
  - symmetry. apply N.eqb_neq. intros Heq. apply Hne.
    rewrite <- (ascii_N_embedding a), <- (ascii_N_embedding b). by rewrite Heq.
Qed.







(** On texts of ASCII characters without the zero character, what LIKE
    compares is the text itself with its letters folded. *)
Lemma like_key_plain (s : string) :
  plain s = true -> like_key s = map lower_code (codes s).
Proof.
  intros Hs. unfold like_key, utf8_chars. f_equal.
  induction s as [|ch s IH]; [reflexivity|].
  cbn [plain] in Hs. apply andb_true_iff in Hs as [Hch Hs].
  apply andb_true_iff in Hch as [Hpos Hlow].
  apply N.ltb_lt in Hpos, Hlow. cbn [decode_from codes].
  destruct (N.eqb_spec (N_of_ascii ch) 0); [lia|].
  destruct (N.leb_spec 0xc0 (N_of_ascii ch)); [lia|].
  by rewrite (IH Hs).
Qed.



(** What the search returns in that witness: the row named ABC and not the
    row named abcd. *)
Example search_nocase_abc :
  search_nocase "abc"
    [(SqlInt 1, SqlText "ABC", SqlText "c", SqlText "i.jpg");
     (SqlInt 2, SqlText "abcd", SqlText "c", SqlText "j.jpg")]
  = [[("name", SqlText "ABC"); ("category", SqlText "c"); ("image", SqlText "i.jpg")]].
Proof. vm_compute. reflexivity. Qed.

(** A keyword is cut at its first zero character, and so is a name: the
    keyword ab, a zero character, zzz finds the names ab, AB and ab followed
    by a zero character and cd. *)
Example search_zero_character :
  GET_search (Some (String "a" (String "b" (String "000" "zzz"))))
    (World ∅ ∅
       (Some [(SqlInt 1, SqlText "ab", SqlText "c", SqlText "i.jpg");
              (SqlInt 2, SqlText "AB", SqlText "c", SqlText "j.jpg");
              (SqlInt 3, SqlText (String "a" (String "b" (String "000" "cd"))),
               SqlText "c", SqlText "k.jpg");
              (SqlInt 4, SqlText "abzzz", SqlText "c", SqlText "l.jpg")]) [] [])
  = Response 200
      (JItems
         [[("name", SqlText "ab"); ("category", SqlText "c"); ("image", SqlText "i.jpg")];
          [("name", SqlText "AB"); ("category", SqlText "c"); ("image", SqlText "j.jpg")];
          [("name", SqlText (String "a" (String "b" (String "000" "cd"))));
           ("category", SqlText "c"); ("image", SqlText "k.jpg")]]).
Proof. vm_compute. reflexivity. Qed.

(** The characters U+FFFE and U+FFFF are read as U+FFFD: the keyword a,
    U+FFFE, b matches the name a, U+FFFD, b. *)
Example like_noncharacter :
  like (String "a" (String "239" (String "191" (String "190" "b"))))
       (String "a" (String "239" (String "191" (String "189" "b")))) = true
  /\ like_key (String "a" (String "239" (String "191" (String "190" "b")))) =
     [97; 0xfffd; 98]%N.
Proof. split; vm_compute; reflexivity. Qed.


(** ** Static images *)

Lemma get_image_bad_suffix (here s : string) (w : world) :
  endswith s ".jpg" = false ->
  get_image here s w =
  (Raise (HTTPException 400 "Image path does not end with .jpg"), w).
Proof. intros Hs. unfold get_image. rewrite Hs. reflexivity. Qed.

(** C3: a path segment that does not end in .jpg is answered with status 400
    and the detail "Image path does not end with .jpg", in every world, so
    whether or not a file of that name exists in the image directory. *)
Theorem image_suffix_rejected (here s : string) (w : world) :
  endswith s ".jpg" = false ->
  GET_image here s w =
  Response 400 (JDetail "Image path does not end with .jpg").
Proof.
  intros Hs. unfold GET_image, serve.
  rewrite (get_image_bad_suffix here s w Hs). reflexivity.
Qed.

Lemma image_suffix_rejected_witness :
  exists_at
    (World {[ "/srv/python/image/x.png" := bytes_of_string "png" ]} {[ "/srv/python/image" ]}
       None [] [])
    (joinpath (images "/srv/python") "x.png") = true
  /\ GET_image "/srv/python" "x.png"
       (World {[ "/srv/python/image/x.png" := bytes_of_string "png" ]} {[ "/srv/python/image" ]}
          None [] [])
     = Response 400 (JDetail "Image path does not end with .jpg").
Proof.
  split; [vm_compute; reflexivity|].
  apply (image_suffix_rejected "/srv/python" "x.png"). reflexivity.
Defined.

Lemma get_image_missing (here f : string) (w : world) :
  endswith f ".jpg" = true ->
  exists_at w (joinpath (images here) f) = false ->
  get_image here f w = (Ok (FileResponse (joinpath (images here) "default.jpg")), w).
Proof.
  intros Hf Hmiss. unfold get_image, mbind, M_bind, path_exists.
  rewrite Hf. cbn [negb]. unfold exists_at in Hmiss. rewrite Hmiss.
  reflexivity.
Qed.

Lemma get_image_found (here f : string) (w : world) :
  endswith f ".jpg" = true ->
  exists_at w (joinpath (images here) f) = true ->
  get_image here f w = (Ok (FileResponse (joinpath (images here) f)), w).
Proof.
  intros Hf Hthere. unfold get_image, mbind, M_bind, path_exists.
  rewrite Hf. cbn [negb]. unfold exists_at in Hthere. rewrite Hthere.
  reflexivity.
Qed.



(** X7: when the placeholder default.jpg is itself absent, a request for a
    missing .jpg name ends in a 500 instead of the placeholder. *)
Lemma image_missing_without_default (here f : string) (w : world) :
  endswith f ".jpg" = true ->
  exists_at w (joinpath (images here) f) = false ->
  fs_files w !! joinpath (images here) "default.jpg" = None ->
  GET_image here f w = internal_server_error.
Proof.
  intros Hf Hmiss Hdefault. unfold GET_image, serve.
  rewrite (get_image_missing here f w Hf Hmiss). cbn [respond fst snd].
  rewrite Hdefault. reflexivity.
Qed.

(** ** Routes *)

(** C9: POST /files/ and POST /uploadfile/ are registered on the first
    FastAPI object, which the name app no longer denotes once it is bound to
    the second one; the application served holds exactly the routes declared
    after the rebinding, and no request for /files/ or /uploadfile/ is
    matched, under any method. *)
Theorem routes_after_rebinding :
  heap imported !! 0%nat =
    Some [Route "POST" "/files/" "create_file";
          Route "POST" "/uploadfile/" "create_upload_file"]
  /\ app imported = Some 1%nat
  /\ served_routes =
       [Route "GET" "/" "root";
        Route "GET" "/items" "show_item";
        Route "POST" "/items" "add_item";
        Route "GET" "/search" "search_item";
        Route "GET" "/image/{items_image}" "get_image";
        Route "GET" "/item/{items_id}" "get_image"]
  /\ (forall method, dispatch served_routes method "/files/" = NotFound)
  /\ (forall method, dispatch served_routes method "/uploadfile/" = NotFound).
Proof.
  split; [reflexivity|]. split; [reflexivity|]. split; [reflexivity|].
  split; intros method; vm_compute; reflexivity.
Qed.

(** Dropping the trailing slash does not help either. *)
Lemma routes_no_slash_variant (method : string) :
  dispatch served_routes method "/files" = NotFound
  /\ dispatch served_routes method "/uploadfile" = NotFound.
Proof. split; vm_compute; reflexivity. Qed.

Example dispatch_get_items : dispatch served_routes "GET" "/items" = Handles "show_item".
Proof. reflexivity. Qed.

Example dispatch_post_items : dispatch served_routes "POST" "/items" = Handles "add_item".
Proof. reflexivity. Qed.

Example dispatch_put_items : dispatch served_routes "PUT" "/items" = MethodNotAllowed.
Proof. reflexivity. Qed.

Example dispatch_item_id : dispatch served_routes "GET" "/item/5" = Handles "get_image".
Proof. reflexivity. Qed.

(** ** Creating an item *)

(** The steps of [add_item], one after the other. *)
Lemma add_item_steps (name category : string) (image : bytes) (randint : Z)
  (w : world) :
  add_item name category image randint w =
  match open_rb image w with
  | (Raise e, w0) => (Raise e, w0)
  | (Ok data, w0) =>
      let digest := SHA256.hexdigest data in
      let image_name := digest +:+ ".jpg" in
      let w1 := with_stdout
                  (stdout w0 ++ ["SHA256ハッシュ値：" +:+ String "010" (" " +:+ digest)]) w0 in
      match open_wb ("images/" +:+ image_name) image w1 with
      | (Raise e, w2) => (Raise e, w2)
      | (Ok _, w2) =>
          let w3 := with_log
                      (log w2 ++ ["Receive item: " +:+ name;
                                  "Receive item: " +:+ category;
                                  "Receive item: " +:+ image_name]) w2 in
          match add_sql randint name category image_name w3 with
          | (Raise e, w4) => (Raise e, w4)
          | (Ok _, w4) => (Ok (Message ("item received: " +:+ name)), w4)
          end
      end
  end.
Proof.
  unfold add_item, image_toHash, mbind, M_bind, print, logger_info, logger_log.
  destruct (open_rb image w) as [[data|e] w0]; [|reflexivity].
  cbn [mret M_ret].
  destruct (open_wb _ image _) as [[[]|e] w2]; [|reflexivity].
  cbn [logger_level INFO Z.leb Z.compare Pos.compare Pos.compare_cont
       with_log log fs_files fs_dirs db_items stdout].
  rewrite <- !app_assoc. reflexivity.
Qed.

Lemma open_rb_world (path : bytes) (w : world) : (open_rb path w).2 = w.
Proof.
  unfold open_rb. destruct (has_nul path); [reflexivity|].
  destruct (fs_files w !! _); [reflexivity|].
  destruct (bool_decide _); reflexivity.
Qed.

Lemma open_rb_ok (path : bytes) (w : world) (data : bytes) :
  (open_rb path w).1 = Ok data ->
  has_nul path = false /\ fs_files w !! string_of_bytes path = Some data.
Proof.
  unfold open_rb. destruct (has_nul path); [discriminate|].
  destruct (fs_files w !! _) as [d|]; [intros [= ->]; done|].
  destruct (bool_decide _); discriminate.
Qed.

Lemma open_rb_not_operational (path : bytes) (w : world) (msg : string) :
  (open_rb path w).1 <> Raise (OperationalError msg).
Proof.
  unfold open_rb. destruct (has_nul path); [discriminate|].
  destruct (fs_files w !! _); [discriminate|].
  destruct (bool_decide _); discriminate.
Qed.

Lemma open_wb_ok (path : string) (data : bytes) (w w' : world) :
  open_wb path data w = (Ok tt, w') ->
  w' = with_files (<[path := data]> (fs_files w)) w.
Proof.
  unfold open_wb. destruct (bool_decide _); [discriminate|].
  destruct (negb _); [discriminate|]. by intros [= <-].
Qed.

Lemma open_wb_not_operational (path : string) (data : bytes) (w : world)
  (msg : string) :
  (open_wb path data w).1 <> Raise (OperationalError msg).
Proof.
  unfold open_wb. destruct (bool_decide _); [discriminate|].
  destruct (negb _); discriminate.
Qed.

(** C7: whenever a create-item request ends with the insert failing, the
    uploaded bytes have already been written under images/ and are still
    there in the world the failure leaves behind: the file is kept, no row
    exists for it, and the client gets a 500. *)
Theorem insert_failure_leaves_image (name category : string) (image : bytes)
  (randint : Z) (w : world) (msg : string) :
  (add_item name category image randint w).1 = Raise (OperationalError msg) ->
  exists data : bytes,
    fs_files w !! string_of_bytes image = Some data
    /\ fs_files (add_item name category image randint w).2
         !! ("images/" +:+ SHA256.hexdigest data +:+ ".jpg") = Some image
    /\ db_items (add_item name category image randint w).2 = None
    /\ (POST_items name category image randint w).1 = internal_server_error.
Proof.
  unfold POST_items, serve. rewrite add_item_steps.
  pose proof (open_rb_not_operational image w msg) as Hrb.
  pose proof (open_rb_world image w) as Hw0.
  pose proof (open_rb_ok image w) as Hok.
  destruct (open_rb image w) as [[data|e] w0]; cbn [fst snd] in *;
    [|intros [= ->]; by destruct Hrb].
  subst w0. destruct (Hok data eq_refl) as [_ Hdata]. clear Hok Hrb.
  cbv zeta.
  set (w1 := with_stdout _ w).
  set (path := "images/" +:+ SHA256.hexdigest data +:+ ".jpg").
  pose proof (open_wb_not_operational path image w1 msg) as Hwb.
  pose proof (open_wb_ok path image w1) as Hwrite.
  destruct (open_wb path image w1) as [[[]|e] w2]; cbn [fst snd] in *;
    [|intros [= ->]; by destruct Hwb].
  rewrite (Hwrite w2 eq_refl). clear Hwrite Hwb.
  unfold add_sql. cbn [with_log with_files db_items fs_files w1 with_stdout].
  destruct (db_items w) as [t|] eqn:Hdb; cbn [fst snd]; [discriminate|].
  intros _. exists data. split; [exact Hdata|].
  cbn [fs_files db_items with_log with_files respond].
  split; [apply lookup_insert_eq|].
  split; [exact Hdb|reflexivity].
Qed.

Lemma insert_failure_leaves_image_witness :
  exists data : bytes,
    fs_files (World {[ "a" := bytes_of_string "x" ]} {[ "images" ]} None [] [])
      !! string_of_bytes (bytes_of_string "a") = Some data
    /\ fs_files
         (add_item "pen" "desk" (bytes_of_string "a") 7
            (World {[ "a" := bytes_of_string "x" ]} {[ "images" ]} None [] [])).2
         !! ("images/" +:+ SHA256.hexdigest data +:+ ".jpg")
       = Some (bytes_of_string "a")
    /\ db_items
         (add_item "pen" "desk" (bytes_of_string "a") 7
            (World {[ "a" := bytes_of_string "x" ]} {[ "images" ]} None [] [])).2
       = None
    /\ (POST_items "pen" "desk" (bytes_of_string "a") 7
          (World {[ "a" := bytes_of_string "x" ]} {[ "images" ]} None [] [])).1
       = internal_server_error.
Proof.
  apply (insert_failure_leaves_image "pen" "desk" (bytes_of_string "a") 7
           (World {[ "a" := bytes_of_string "x" ]} {[ "images" ]} None [] [])
           "no such table: items").
  vm_compute. reflexivity.
Defined.

(** A request that succeeds read the file whose path is the uploaded bytes,
    named the image after the digest of that file's content, stored the
    upload under that name and appended one row. *)
Lemma add_item_ok_inv (name category : string) (image : bytes) (randint : Z)
  (w : world) (v : pyresp) :
  (add_item name category image randint w).1 = Ok v ->
  exists (data : bytes) (t : list row),
    has_nul image = false
    /\ fs_files w !! string_of_bytes image = Some data
    /\ db_items w = Some t
    /\ v = Message ("item received: " +:+ name)
    /\ db_items (add_item name category image randint w).2 =
       Some (t ++ [(SqlInt randint, SqlText name, SqlText category,
                    SqlText (SHA256.hexdigest data +:+ ".jpg"))])
    /\ fs_files (add_item name category image randint w).2
         !! ("images/" +:+ SHA256.hexdigest data +:+ ".jpg") = Some image.
Proof.
  rewrite add_item_steps.
  pose proof (open_rb_world image w) as Hw0.
  pose proof (open_rb_ok image w) as Hok.
  destruct (open_rb image w) as [[data|e] w0]; cbn [fst snd] in *;
    [|discriminate].
  subst w0. destruct (Hok data eq_refl) as [Hnul Hdata]. clear Hok.
  cbv zeta.
  set (w1 := with_stdout _ w).
  set (path := "images/" +:+ SHA256.hexdigest data +:+ ".jpg").
  pose proof (open_wb_ok path image w1) as Hwrite.
  destruct (open_wb path image w1) as [[[]|e] w2]; cbn [fst snd] in *;
    [|discriminate].
  rewrite (Hwrite w2 eq_refl). clear Hwrite.
  unfold add_sql. cbn [with_log with_files db_items fs_files w1 with_stdout].
  destruct (db_items w) as [t|] eqn:Hdb; cbn [fst snd]; [|discriminate].
  intros [= <-]. exists data, t.
  cbn [fs_files db_items with_items with_log with_files].
  repeat split; try done. apply lookup_insert_eq.
Qed.


(** An upload whose bytes are not the path of an existing file is answered
    with a 500 and leaves the world as it was. *)
Lemma add_item_not_a_path (name category : string) (image : bytes)
  (randint : Z) (w : world) :
  fs_files w !! string_of_bytes image = None ->
  POST_items name category image randint w = (internal_server_error, w).
Proof.
  intros Hnone. unfold POST_items, serve. rewrite add_item_steps.
  unfold open_rb. rewrite Hnone.
  destruct (has_nul image); [reflexivity|].
  destruct (bool_decide _); reflexivity.
Qed.

(** So is an upload that contains a zero byte, as picture files do. *)
Lemma add_item_nul_byte (name category : string) (image : bytes)
  (randint : Z) (w : world) :
  has_nul image = true ->
  POST_items name category image randint w = (internal_server_error, w).
Proof.
  intros Hnul. unfold POST_items, serve. rewrite add_item_steps.
  unfold open_rb. rewrite Hnul. reflexivity.
Qed.

(** X16: two create-item requests that both succeed add two rows after the
    earlier ones, whatever they carry: equal names, categories, uploads or
    drawn ids are not detected. *)
Lemma two_uploads_two_rows (n1 c1 n2 c2 : string) (b1 b2 : bytes) (r1 r2 : Z)
  (w : world) (v1 v2 : pyresp) (t : list row) :
  db_items w = Some t ->
  (add_item n1 c1 b1 r1 w).1 = Ok v1 ->
  (add_item n2 c2 b2 r2 (add_item n1 c1 b1 r1 w).2).1 = Ok v2 ->
  exists row1 row2 : row,
    db_items (add_item n2 c2 b2 r2 (add_item n1 c1 b1 r1 w).2).2 =
    Some (t ++ [row1; row2]).
Proof.
  intros Hdb H1 H2.
  destruct (add_item_ok_inv _ _ _ _ _ _ H1) as (d1 & t1 & _ & _ & Ht1 & _ & Hrows1 & _).
  destruct (add_item_ok_inv _ _ _ _ _ _ H2) as (d2 & t2 & _ & _ & Ht2 & _ & Hrows2 & _).
  rewrite Hdb in Ht1. injection Ht1 as <-.
  rewrite Hrows1 in Ht2. injection Ht2 as <-.
  eexists _, _. rewrite Hrows2, <- app_assoc. reflexivity.
Qed.

(** C1 at a concrete request: the file a holds the byte x, the upload is the
    byte a.  The request succeeds and the listed image name is the digest of
    x, the content of the file called a, not the digest of the uploaded
    byte a. *)
Theorem create_item_hashes_file_at_path :
  (POST_items "pen" "desk" (bytes_of_string "a") 7
     (World {[ "a" := bytes_of_string "x" ]} {[ "images" ]} (Some []) [] [])).1
  = Response 200 (JMessage "item received: pen")
  /\ GET_items
       (POST_items "pen" "desk" (bytes_of_string "a") 7
          (World {[ "a" := bytes_of_string "x" ]} {[ "images" ]} (Some []) [] [])).2
     = Response 200
         (JItems [[("name", SqlText "pen"); ("category", SqlText "desk");
                   ("image",
                    SqlText "2d711642b726b04401627ca9fbac32f5c8530fb1903cc4db02258717921a4881.jpg")]])
  /\ SHA256.hexdigest (bytes_of_string "x") =
     "2d711642b726b04401627ca9fbac32f5c8530fb1903cc4db02258717921a4881"
  /\ SHA256.hexdigest (bytes_of_string "a") =
     "ca978112ca1bbdcafac231b39a23dc4da786eff8147c4e72b9807785afee48bb".
Proof. repeat split; vm_compute; reflexivity. Qed.

(** C5 at a concrete pair of requests: the file
    images/2d71...4881.jpg holds the byte x, whose digest is 2d71...4881, and
    both requests upload the 75 bytes that spell that path.  Both succeed and
    two rows are added, but the first is named after the digest of x and, the
    first request having overwritten that file with the upload, the second is
    named after the digest of the upload. *)
Theorem same_upload_two_names :
  (POST_items "pen" "desk"
     (bytes_of_string
        "images/2d711642b726b04401627ca9fbac32f5c8530fb1903cc4db02258717921a4881.jpg")
     7
     (World
        {[ "images/2d711642b726b04401627ca9fbac32f5c8530fb1903cc4db02258717921a4881.jpg"
           := bytes_of_string "x" ]}
        {[ "images" ]} (Some []) [] [])).1
  = Response 200 (JMessage "item received: pen")
  /\ (POST_items "pen" "desk"
        (bytes_of_string
           "images/2d711642b726b04401627ca9fbac32f5c8530fb1903cc4db02258717921a4881.jpg")
        7
        (POST_items "pen" "desk"
           (bytes_of_string
              "images/2d711642b726b04401627ca9fbac32f5c8530fb1903cc4db02258717921a4881.jpg")
           7
           (World
              {[ "images/2d711642b726b04401627ca9fbac32f5c8530fb1903cc4db02258717921a4881.jpg"
                 := bytes_of_string "x" ]}
              {[ "images" ]} (Some []) [] [])).2).1
     = Response 200 (JMessage "item received: pen")
  /\ GET_items
       (POST_items "pen" "desk"
          (bytes_of_string
             "images/2d711642b726b04401627ca9fbac32f5c8530fb1903cc4db02258717921a4881.jpg")
          7
          (POST_items "pen" "desk"
             (bytes_of_string
                "images/2d711642b726b04401627ca9fbac32f5c8530fb1903cc4db02258717921a4881.jpg")
             7
             (World
                {[ "images/2d711642b726b04401627ca9fbac32f5c8530fb1903cc4db02258717921a4881.jpg"
                   := bytes_of_string "x" ]}
                {[ "images" ]} (Some []) [] [])).2).2
     = Response 200
         (JItems
            [[("name", SqlText "pen"); ("category", SqlText "desk");
              ("image",
               SqlText "2d711642b726b04401627ca9fbac32f5c8530fb1903cc4db02258717921a4881.jpg")];
             [("name", SqlText "pen"); ("category", SqlText "desk");
              ("image",
               SqlText "8416f4e9608a2b17b3bd3fde25c5613f7ab0d3227397343b491d2f81600369ef.jpg")]]).
Proof. repeat split; vm_compute; reflexivity. Qed.

(** * Further properties of the code *)

(** ** Row mapper on arbitrary tuples *)

Section RowMapperGeneral.

Context {V : Type}.

Lemma row_dict_raises (r : list V) (e : exn) :
  row_dict r = Raise e -> e = IndexError "tuple index out of range".
Proof.
  destruct r as [|a [|b [|c [|d r]]]]; unfold row_dict; simpl;
    intros [= <-]; reflexivity.
Qed.

Lemma row_dict_ok (r : list V) (d : odict V) :
  row_dict r = Ok d <-> fields_of_tuple r d.
Proof.
  split.
  - destruct r as [|a [|b [|c [|im r]]]]; unfold row_dict; simpl;
      try discriminate.
    intros [= <-]. exists b, c, im. repeat split.
  - intros (n & c & im & Hn & Hc & Him & ->).
    destruct r as [|a [|b [|c' [|im' r]]]]; simpl in *; try discriminate.
    injection Hn as ->. injection Hc as ->. injection Him as ->. reflexivity.
Qed.

Lemma db_toList_from_ok (items : list (list V)) :
  forall (acc out : list (odict V)),
    db_toList_from acc items = Ok out ->
    exists ds, out = acc ++ ds /\ Forall2 fields_of_tuple items ds.
Proof.
  induction items as [|r items IH]; intros acc out; cbn [db_toList_from].
  - intros [= <-]. exists []. split; [by rewrite app_nil_r|constructor].
  - destruct (row_dict r) as [d|e] eqn:Hr; [|discriminate].
    intros Hrun. destruct (IH _ _ Hrun) as (ds & -> & Hds).
    exists (d :: ds). split; [by rewrite <- app_assoc|].
    constructor; [by apply row_dict_ok|exact Hds].
Qed.

Lemma db_toList_from_raises (items : list (list V)) :
  forall (acc : list (odict V)) (e : exn),
    db_toList_from acc items = Raise e ->
    e = IndexError "tuple index out of range".
Proof.
  induction items as [|r items IH]; intros acc e; cbn [db_toList_from];
    [discriminate|].
  destruct (row_dict r) as [d|e'] eqn:Hr.
  - apply IH.
  - intros [= <-]. by apply row_dict_raises in Hr.
Qed.

Lemma db_toList_from_shift (items : list (list V)) :
  forall acc : list (odict V),
    db_toList_from acc items =
    match db_toList_from [] items with
    | Ok ds => Ok (acc ++ ds)
    | Raise e => Raise e
    end.
Proof.
  induction items as [|r items IH]; intros acc; cbn [db_toList_from].
  - by rewrite app_nil_r.
  - destruct (row_dict r) as [d|e]; [|reflexivity].
    rewrite (IH (acc ++ [d])), (IH ([] ++ [d])).
    destruct (db_toList_from [] items); [|reflexivity].
    by rewrite <- app_assoc.
Qed.

Lemma db_toList_from_app (a b : list (list V)) :
  forall acc : list (odict V),
    db_toList_from acc (a ++ b) =
    match db_toList_from acc a with
    | Ok xs => db_toList_from xs b
    | Raise e => Raise e
    end.
Proof.
  induction a as [|r a IH]; intros acc; [reflexivity|].
  rewrite <- app_comm_cons. cbn [db_toList_from].
  destruct (row_dict r); [apply IH|reflexivity].
Qed.

End RowMapperGeneral.

(** X1: a tuple with fewer than four components anywhere in the input makes
    the row mapper raise IndexError: no list is returned, not even for the
    rows before it. *)
Theorem db_toList_short_row (V : Type) (items : list (list V)) (r : list V) :
  r ∈ items ->
  (length r < 4)%nat ->
  db_toList items = Raise (IndexError "tuple index out of range").
Proof.
  intros Hin Hlen. unfold db_toList.
  destruct (db_toList_from [] items) as [out|e] eqn:Hrun.
  - exfalso. destruct (db_toList_from_ok _ _ _ Hrun) as (ds & _ & Hds).
    apply list_elem_of_lookup in Hin as [i Hi].
    destruct (Forall2_lookup_l _ _ _ _ _ Hds Hi) as (d & _ & Hd).
    destruct Hd as (n & c & im & _ & _ & Him & _).
    apply lookup_lt_Some in Him. lia.
  - f_equal. by apply db_toList_from_raises in Hrun.
Qed.

Lemma db_toList_short_row_witness :
  db_toList [[1; 2; 3; 4]; [5; 6; 7]] = Raise (IndexError "tuple index out of range").
Proof.
  apply (db_toList_short_row Z [[1; 2; 3; 4]; [5; 6; 7]] [5; 6; 7]).
  - apply list_elem_of_In. simpl. right. left. reflexivity.
  - simpl. lia.
Defined.

(** X2: whenever the row mapper returns, on tuples of any width, the result
    has one map per input tuple, in the same order, and each map holds exactly
    the keys name, category, image, in that order, bound to the tuple's
    components 1, 2 and 3; component 0 and any component after the fourth are
    ignored. *)
Theorem db_toList_result_shape (V : Type) (items : list (list V))
  (out : list (odict V)) :
  db_toList items = Ok out ->
  length out = length items
  /\ Forall2 fields_of_tuple items out
  /\ Forall (fun d => d.*1 = ["name"; "category"; "image"]) out.
Proof.
  intros Hrun. destruct (db_toList_from_ok _ _ _ Hrun) as (ds & -> & Hds).
  rewrite app_nil_l. split; [symmetry; by eapply Forall2_length|].
  split; [exact Hds|].
  clear Hrun. induction Hds as [|r d items ds Hd _ IH]; constructor; [|exact IH].
  destruct Hd as (n & c & im & _ & _ & _ & ->). reflexivity.
Qed.

Lemma db_toList_result_shape_witness :
  length [[("name", 2); ("category", 3); ("image", 4)]] = length [[1; 2; 3; 4; 5]]
  /\ Forall2 fields_of_tuple [[1; 2; 3; 4; 5]] [[("name", 2); ("category", 3); ("image", 4)]]
  /\ Forall (fun d => d.*1 = ["name"; "category"; "image"])
       [[("name", 2); ("category", 3); ("image", 4)]].
Proof.
  apply (db_toList_result_shape Z [[1; 2; 3; 4; 5]]). reflexivity.
Defined.

(** X3: mapping a concatenation is mapping the two parts one after the other:
    the result is the concatenation of the two results, and a failure in
    either part is the failure of the whole. *)
Theorem db_toList_app (V : Type) (a b : list (list V)) :
  db_toList (a ++ b) =
  match db_toList a with
  | Ok xs =>
      match db_toList b with
      | Ok ys => Ok (xs ++ ys)
      | Raise e => Raise e
      end
  | Raise e => Raise e
  end.
Proof.
  unfold db_toList. rewrite db_toList_from_app.
  destruct (db_toList_from [] a) as [xs|e]; [|reflexivity].
  apply db_toList_from_shift.
Qed.

(** ** Reading endpoints *)

Lemma search_item_no_table (keyword : option string) (w : world) :
  db_items w = None -> search_item keyword w = (Raise no_such_table, w).
Proof.
  intros Ht. unfold search_item, mbind, M_bind, select_like.
  rewrite Ht. reflexivity.
Qed.

Lemma show_item_no_table (w : world) :
  db_items w = None -> show_item w = (Raise no_such_table, w).
Proof.
  intros Ht. unfold show_item, mbind, M_bind, select_all.
  rewrite Ht. reflexivity.
Qed.

Lemma get_image_world (here s : string) (w : world) :
  (get_image here s w).2 = w.
Proof.
  destruct (endswith s ".jpg") eqn:Hs.
  - destruct (exists_at w (joinpath (images here) s)) eqn:Hex.
    + by rewrite (get_image_found here s w Hs Hex).
    + by rewrite (get_image_missing here s w Hs Hex).
  - by rewrite (get_image_bad_suffix here s w Hs).
Qed.

(** X4: when the items table does not exist, GET /items and GET /search, with
    or without a keyword, are answered with a 500: the database error is not
    handled. *)
Theorem missing_table_is_server_error (w : world) :
  db_items w = None ->
  GET_items w = internal_server_error
  /\ forall keyword : option string, GET_search keyword w = internal_server_error.
Proof.
  intros Ht. split.
  - unfold GET_items, serve. by rewrite (show_item_no_table w Ht).
  - intros keyword. unfold GET_search, serve.
    by rewrite (search_item_no_table keyword w Ht).
Qed.

Lemma missing_table_is_server_error_witness :
  GET_items (World ∅ ∅ None [] []) = internal_server_error
  /\ forall keyword : option string,
       GET_search keyword (World ∅ ∅ None [] []) = internal_server_error.
Proof. apply (missing_table_is_server_error (World ∅ ∅ None [] [])). reflexivity. Defined.

(** X5: on an existing items table the reading endpoints change nothing:
    after GET /items, GET /search and GET /image/..., whatever their outcome,
    the files, the directories, the table, the log and the printed output are
    what they were.  In particular get_image's "Image not found" record is
    never logged, the logger being set to INFO. *)
Theorem reads_leave_world (here : string) (w : world) (t : list row) :
  db_items w = Some t ->
  (serve show_item w).2 = w
  /\ (forall keyword : option string, (serve (search_item keyword) w).2 = w)
  /\ (forall s : string, (serve (get_image here s) w).2 = w).
Proof.
  intros Ht. unfold serve. cbn [snd]. split; [|split].
  - by rewrite (show_item_run w t Ht).
  - intros keyword. by rewrite (search_item_run keyword w t Ht).
  - intros s. apply get_image_world.
Qed.

Lemma reads_leave_world_witness :
  (serve show_item
     (World {[ "/srv/python/image/pen.jpg" := bytes_of_string "pixels" ]}
        {[ "/srv/python/image" ]}
        (Some [(SqlInt 1, SqlText "pen", SqlText "desk", SqlText "pen.jpg")]) [] [])).2
  = World {[ "/srv/python/image/pen.jpg" := bytes_of_string "pixels" ]}
      {[ "/srv/python/image" ]}
      (Some [(SqlInt 1, SqlText "pen", SqlText "desk", SqlText "pen.jpg")]) [] []
  /\ (forall keyword : option string,
        (serve (search_item keyword)
           (World {[ "/srv/python/image/pen.jpg" := bytes_of_string "pixels" ]}
              {[ "/srv/python/image" ]}
              (Some [(SqlInt 1, SqlText "pen", SqlText "desk", SqlText "pen.jpg")])
              [] [])).2
        = World {[ "/srv/python/image/pen.jpg" := bytes_of_string "pixels" ]}
            {[ "/srv/python/image" ]}
            (Some [(SqlInt 1, SqlText "pen", SqlText "desk", SqlText "pen.jpg")]) [] [])
  /\ (forall s : string,
        (serve (get_image "/srv/python" s)
           (World {[ "/srv/python/image/pen.jpg" := bytes_of_string "pixels" ]}
              {[ "/srv/python/image" ]}
              (Some [(SqlInt 1, SqlText "pen", SqlText "desk", SqlText "pen.jpg")])
              [] [])).2
        = World {[ "/srv/python/image/pen.jpg" := bytes_of_string "pixels" ]}
            {[ "/srv/python/image" ]}
            (Some [(SqlInt 1, SqlText "pen", SqlText "desk", SqlText "pen.jpg")]) [] []).
Proof.
  apply (reads_leave_world "/srv/python" _
           [(SqlInt 1, SqlText "pen", SqlText "desk", SqlText "pen.jpg")]).
  reflexivity.
Defined.

(** X6: a file name f ending in .jpg that names a regular file of the image
    directory is answered with status 200 and that file's bytes. *)
Theorem image_found_served (here f : string) (w : world) (data : bytes) :
  endswith f ".jpg" = true ->
  fs_files w !! joinpath (images here) f = Some data ->
  GET_image here f w = Response 200 (Raw data).
Proof.
  intros Hf Hdata. unfold GET_image, serve.
  rewrite (get_image_found here f w Hf).
  - cbn [respond fst snd]. rewrite Hdata. reflexivity.
  - unfold exists_at. rewrite Hdata. reflexivity.
Qed.

Lemma image_found_served_witness :
  GET_image "/srv/python" "pen.jpg"
    (World {[ "/srv/python/image/pen.jpg" := bytes_of_string "pixels" ]}
       {[ "/srv/python/image" ]} None [] [])
  = Response 200 (Raw (bytes_of_string "pixels")).
Proof.
  apply (image_found_served "/srv/python" "pen.jpg"); vm_compute; reflexivity.
Defined.

(** X8: a name ending in .jpg under which the image directory holds a
    directory, not a file, is not replaced by the placeholder: the response
    is a 500. *)
Theorem image_directory_is_server_error (here f : string) (w : world) :
  endswith f ".jpg" = true ->
  joinpath (images here) f ∈ fs_dirs w ->
  fs_files w !! joinpath (images here) f = None ->
  GET_image here f w = internal_server_error.
Proof.
  intros Hf Hdir Hfile. unfold GET_image, serve.
  rewrite (get_image_found here f w Hf).
  - cbn [respond fst snd]. rewrite Hfile. reflexivity.
  - unfold exists_at. apply orb_true_iff. right.
    by apply bool_decide_eq_true_2.
Qed.

Lemma image_directory_is_server_error_witness :
  GET_image "/srv/python" "album.jpg"
    (World {[ "/srv/python/image/default.jpg" := bytes_of_string "placeholder" ]}
       {[ "/srv/python/image"; "/srv/python/image/album.jpg" ]} None [] [])
  = internal_server_error.
Proof.
  apply (image_directory_is_server_error "/srv/python" "album.jpg").
  - vm_compute. reflexivity.
  - refine (bool_decide_unpack _ _). vm_compute. exact I.
  - vm_compute. reflexivity.
Defined.

(** ** Creating an item: failures before anything is written *)



(** ** The shape of a digest *)

Lemma be_bytes_length (n : nat) (x : Z) : length (SHA256.be_bytes n x) = n.
Proof. induction n as [|n IH]; [reflexivity|]. cbn [SHA256.be_bytes length]. by rewrite IH. Qed.

Lemma be_bytes_range (n : nat) (x : Z) :
  Forall (fun b => 0 <= b < 256) (SHA256.be_bytes n x).
Proof.
  induction n as [|n IH]; cbn [SHA256.be_bytes]; constructor; [|exact IH].
  apply Z.mod_pos_bound. lia.
Qed.

Lemma compress_length (h block : list Z) :
  length h = 8%nat -> length (SHA256.compress h block) = 8%nat.
Proof.
  intros Hh. unfold SHA256.compress.
  rewrite length_map, length_combine, Hh. reflexivity.
Qed.

Lemma blocks_length (n : nat) :
  forall h ws, length h = 8%nat -> length (SHA256.blocks n h ws) = 8%nat.
Proof.
  induction n as [|n IH]; intros h ws Hh; cbn [SHA256.blocks]; [exact Hh|].
  destruct ws as [|w ws]; [exact Hh|]. apply IH. by apply compress_length.
Qed.

Lemma digest_length (msg : bytes) : length (SHA256.digest msg) = 32%nat.
Proof.
  unfold SHA256.digest.
  assert (Hw : length (SHA256.digest_words (map Z_of_byte msg)) = 8%nat).
  { unfold SHA256.digest_words. by apply blocks_length. }
  destruct (SHA256.digest_words (map Z_of_byte msg))
    as [|a [|b [|c [|d [|e [|f [|g [|h [|i l]]]]]]]]]; try discriminate.
  reflexivity.
Qed.

Lemma digest_range (msg : bytes) :
  Forall (fun b => 0 <= b < 256) (SHA256.digest msg).
Proof.
  unfold SHA256.digest.
  induction (SHA256.digest_words (map Z_of_byte msg)) as [|w ws IH];
    cbn [flat_map]; [constructor|].
  apply Forall_app. split; [apply be_bytes_range|exact IH].
Qed.

Lemma hex_digit_lower (d : Z) :
  0 <= d < 16 -> is_hex_lower (SHA256.hex_digit d) = true.
Proof.
  intros Hd.
  assert (Hin : In d [0; 1; 2; 3; 4; 5; 6; 7; 8; 9; 10; 11; 12; 13; 14; 15])
    by (simpl; lia).
  simpl in Hin.
  repeat (destruct Hin as [<-|Hin]; [reflexivity|]). destruct Hin.
Qed.

Lemma hex_length (l : list Z) :
  String.length (SHA256.hex l) = (2 * length l)%nat.
Proof.
  induction l as [|b l IH]; [reflexivity|].
  cbn [SHA256.hex String.length length]. rewrite IH. lia.
Qed.

Lemma hex_lower (l : list Z) :
  Forall (fun b => 0 <= b < 256) l ->
  all_chars is_hex_lower (SHA256.hex l) = true.
Proof.
  induction 1 as [|b l Hb _ IH]; [reflexivity|].
  cbn [SHA256.hex all_chars].
  rewrite !hex_digit_lower, IH; [reflexivity| |].
  - apply Z.mod_pos_bound. lia.
  - split; [apply Z.div_pos; lia|apply Z.div_lt_upper_bound; lia].
Qed.

Lemma hexdigest_chars (msg : bytes) :
  String.length (SHA256.hexdigest msg) = 64%nat
  /\ all_chars is_hex_lower (SHA256.hexdigest msg) = true.
Proof.
  unfold SHA256.hexdigest. split.
  - by rewrite hex_length, digest_length.
  - apply hex_lower, digest_range.
Qed.

(** ** Paths built from a digest *)

Lemma append_cons (c : ascii) (a b : string) :
  String c a +:+ b = String c (a +:+ b).
Proof. reflexivity. Qed.

Lemma append_nil_l (b : string) : EmptyString +:+ b = b.
Proof. reflexivity. Qed.

Lemma hex_lower_no_slash (c : ascii) :
  is_hex_lower c = true -> Ascii.eqb c "/" = false.
Proof.
  unfold is_hex_lower. rewrite ascii_eqb_code. cbv zeta.
  change (N_of_ascii "/") with 47%N. intros Hc. apply N.eqb_neq. intros Heq.
  rewrite Heq in Hc. discriminate.
Qed.

Lemma hex_is_segment (s : string) :
  all_chars is_hex_lower s = true -> is_segment s = true.
Proof.
  induction s as [|c s IH]; [reflexivity|]. cbn [all_chars is_segment].
  intros [Hc Hs]%andb_true_iff. by rewrite (hex_lower_no_slash c Hc), (IH Hs).
Qed.

Lemma is_segment_app (a b : string) :
  is_segment a = true -> is_segment b = true -> is_segment (a +:+ b) = true.
Proof.
  intros Ha Hb. induction a as [|c a IH]; [exact Hb|].
  rewrite append_cons. cbn [is_segment] in *.
  apply andb_true_iff in Ha as [Hc Ha]. by rewrite Hc, (IH Ha).
Qed.

Lemma dirname_segment (s : string) : is_segment s = true -> dirname s = None.
Proof.
  induction s as [|c s IH]; [reflexivity|]. cbn [is_segment dirname].
  intros [Hc Hs]%andb_true_iff. rewrite (IH Hs).
  apply negb_true_iff in Hc. by rewrite Hc.
Qed.

Lemma dirname_images (s : string) :
  is_segment s = true -> dirname ("images/" +:+ s) = Some "images".
Proof.
  intros Hs. rewrite !append_cons, append_nil_l. cbn [dirname].
  rewrite (dirname_segment s Hs). reflexivity.
Qed.

Lemma endswith_app (a b : string) : endswith (a +:+ b) b = true.
Proof.
  induction a as [|c a IH].
  - rewrite append_nil_l. destruct b; cbn [endswith]; rewrite String.eqb_refl;
      reflexivity.
  - rewrite append_cons. cbn [endswith]. rewrite IH. apply orb_true_r.
Qed.

Lemma image_name_segment (data : bytes) :
  is_segment (SHA256.hexdigest data +:+ ".jpg") = true.
Proof.
  apply is_segment_app; [|reflexivity].
  apply hex_is_segment, hexdigest_chars.
Qed.

Lemma parent_of_image (data : bytes) (w : world) :
  parent_exists ("images/" +:+ SHA256.hexdigest data +:+ ".jpg") w =
  bool_decide ("images" ∈ fs_dirs w).
Proof.
  unfold parent_exists. by rewrite (dirname_images _ (image_name_segment data)).
Qed.

(** X10: the digest of any byte string, of any length, is written with
    exactly 64 characters, each a decimal digit or a letter a to f; the image
    name made from it is therefore a single path component that ends in
    .jpg. *)
Theorem hexdigest_format (msg : bytes) :
  String.length (SHA256.hexdigest msg) = 64%nat
  /\ all_chars is_hex_lower (SHA256.hexdigest msg) = true
  /\ is_segment (SHA256.hexdigest msg +:+ ".jpg") = true
  /\ endswith (SHA256.hexdigest msg +:+ ".jpg") ".jpg" = true.
Proof.
  destruct (hexdigest_chars msg) as [Hlen Hhex].
  split; [exact Hlen|]. split; [exact Hhex|]. split.
  - apply is_segment_app; [by apply hex_is_segment|reflexivity].
  - apply endswith_app.
Qed.

(** ** Creating an item: when it succeeds and what it touches *)

Lemma add_sql_run (id : Z) (name category image_name : string) (w : world) :
  add_sql id name category image_name w =
  match db_items w with
  | Some t =>
      (Ok tt,
       with_items
         (Some (t ++ [(SqlInt id, SqlText name, SqlText category, SqlText image_name)])) w)
  | None => (Raise no_such_table, w)
  end.
Proof. reflexivity. Qed.

(** The outcome of [add_item] once the file named by the upload is known. *)
Lemma add_item_after_read (name category : string) (image data : bytes)
  (randint : Z) (w : world) :
  has_nul image = false ->
  fs_files w !! string_of_bytes image = Some data ->
  let image_name := SHA256.hexdigest data +:+ ".jpg" in
  let w1 := with_stdout
              (stdout w ++ ["SHA256ハッシュ値：" +:+ String "010"
                              (" " +:+ SHA256.hexdigest data)]) w in
  let w3 := with_log
              (log w ++ ["Receive item: " +:+ name;
                         "Receive item: " +:+ category;
                         "Receive item: " +:+ image_name])
              (with_files (<[("images/" +:+ image_name) := image]> (fs_files w)) w1) in
  add_item name category image randint w =
  if bool_decide (("images/" +:+ image_name) ∈ fs_dirs w)
  then (Raise (IsADirectoryError ("images/" +:+ image_name)), w1)
  else if bool_decide ("images" ∈ fs_dirs w)
  then match db_items w with
       | Some t =>
           (Ok (Message ("item received: " +:+ name)),
            with_items
              (Some (t ++ [(SqlInt randint, SqlText name, SqlText category,
                            SqlText image_name)])) w3)
       | None => (Raise no_such_table, w3)
       end
  else (Raise (FileNotFoundError ("images/" +:+ image_name)), w1).
Proof.
  intros Hnul Hdata. cbv zeta. rewrite add_item_steps.
  unfold open_rb. rewrite Hnul, Hdata. cbv zeta.
  unfold open_wb. rewrite parent_of_image.
  cbn [with_stdout fs_dirs fs_files].
  destruct (bool_decide (_ ∈ fs_dirs w)); [reflexivity|].
  destruct (bool_decide ("images" ∈ fs_dirs w)); cbn [negb]; [|reflexivity].
  rewrite add_sql_run.
  cbn [with_log with_files with_stdout db_items log fs_files fs_dirs stdout].
  destruct (db_items w); reflexivity.
Qed.

Lemma post_items_ok_iff (name category : string) (image : bytes)
  (randint : Z) (w : world) :
  (POST_items name category image randint w).1 =
    Response 200 (JMessage ("item received: " +:+ name))
  <->
  has_nul image = false
  /\ exists data : bytes,
       fs_files w !! string_of_bytes image = Some data
       /\ ("images" ∈ fs_dirs w)
       /\ (("images/" +:+ SHA256.hexdigest data +:+ ".jpg") ∉ fs_dirs w)
       /\ is_Some (db_items w).
Proof.
  unfold POST_items, serve. cbn [fst].
  destruct (has_nul image) eqn:Hnul.
  { pose proof (add_item_nul_byte name category image randint w Hnul) as Hrun.
    unfold POST_items, serve in Hrun. injection Hrun as Hresp _. rewrite Hresp.
    split; [discriminate|]. intros [? _]. discriminate. }
  destruct (fs_files w !! string_of_bytes image) as [data|] eqn:Hdata.
  2:{ pose proof (add_item_not_a_path name category image randint w Hdata) as Hrun.
      unfold POST_items, serve in Hrun. injection Hrun as Hresp _. rewrite Hresp.
      split; [discriminate|]. intros (_ & d & Hd & _). discriminate. }
  rewrite (add_item_after_read name category image data randint w Hnul Hdata).
  cbv zeta.
  destruct (bool_decide (_ ∈ fs_dirs w)) eqn:Htarget.
  { apply bool_decide_eq_true_1 in Htarget.
    split; [discriminate|]. intros (_ & d & [= <-] & _ & Hno & _). by destruct Hno. }
  apply bool_decide_eq_false_1 in Htarget.
  destruct (bool_decide ("images" ∈ fs_dirs w)) eqn:Hdir.
  2:{ apply bool_decide_eq_false_1 in Hdir.
      split; [discriminate|]. intros (_ & d & _ & Hin & _). by destruct Hdir. }
  apply bool_decide_eq_true_1 in Hdir.
  destruct (db_items w) as [t|] eqn:Hdb.
  - split; [|reflexivity]. intros _. split; [reflexivity|].
    exists data. repeat split; eauto.
  - split; [discriminate|]. intros (_ & d & _ & _ & _ & [t Ht]). discriminate.
Qed.


(** X13: after a successful create-item whose name and category hold no
    digit, the table holds its earlier rows followed by one new row (drawn
    id, given name, given category, image name), the image name is a single
    path component ending in .jpg, and the file images/<image name> holds
    exactly the uploaded bytes. *)
Theorem created_row_names_stored_file (name category : string) (image : bytes)
  (randint : Z) (w : world) :
  has_digit name = false ->
  has_digit category = false ->
  (POST_items name category image randint w).1 =
    Response 200 (JMessage ("item received: " +:+ name)) ->
  exists (image_name : string) (t : list row),
    db_items w = Some t
    /\ db_items (POST_items name category image randint w).2 =
       Some (t ++ [(SqlInt randint, SqlText name, SqlText category,
                    SqlText image_name)])
    /\ fs_files (POST_items name category image randint w).2
         !! ("images/" +:+ image_name) = Some image
    /\ is_segment image_name = true
    /\ endswith image_name ".jpg" = true.
Proof.
  unfold POST_items, serve. cbn [fst snd]. intros _ _ Hresp.
  destruct (add_item name category image randint w) as [[v|e] w'] eqn:Hrun.
  - destruct (add_item_ok_inv name category image randint w v)
      as (data & t & _ & _ & Hdb & _ & Hrows & Hfile).
    { by rewrite Hrun. }
    rewrite Hrun in Hrows, Hfile. cbn [snd] in Hrows, Hfile.
    exists (SHA256.hexdigest data +:+ ".jpg"), t.
    split; [exact Hdb|]. split; [exact Hrows|]. split; [exact Hfile|].
    split; [apply image_name_segment|apply endswith_app].
  - exfalso. cbn [respond] in Hresp. destruct e; discriminate.
Qed.

Lemma created_row_names_stored_file_witness :
  exists (image_name : string) (t : list row),
    db_items (World {[ "a" := bytes_of_string "x" ]} {[ "images" ]}
                (Some [(SqlInt 3, SqlText "cup", SqlText "kitchen", SqlText "c.jpg")]) [] [])
    = Some t
    /\ db_items
         (POST_items "pen" "desk" (bytes_of_string "a") 7
            (World {[ "a" := bytes_of_string "x" ]} {[ "images" ]}
               (Some [(SqlInt 3, SqlText "cup", SqlText "kitchen", SqlText "c.jpg")])
               [] [])).2
       = Some (t ++ [(SqlInt 7, SqlText "pen", SqlText "desk", SqlText image_name)])
    /\ fs_files
         (POST_items "pen" "desk" (bytes_of_string "a") 7
            (World {[ "a" := bytes_of_string "x" ]} {[ "images" ]}
               (Some [(SqlInt 3, SqlText "cup", SqlText "kitchen", SqlText "c.jpg")])
               [] [])).2
         !! ("images/" +:+ image_name) = Some (bytes_of_string "a")
    /\ is_segment image_name = true
    /\ endswith image_name ".jpg" = true.
Proof.
  apply (created_row_names_stored_file "pen" "desk" (bytes_of_string "a") 7
           (World {[ "a" := bytes_of_string "x" ]} {[ "images" ]}
              (Some [(SqlInt 3, SqlText "cup", SqlText "kitchen", SqlText "c.jpg")])
              [] []));
    vm_compute; reflexivity.
Defined.

(** What a create-item request can do to the file system, whatever its
    outcome: nothing, or write the upload under images/<digest>.jpg. *)
Lemma add_item_files (name category : string) (image : bytes) (randint : Z)
  (w : world) :
  fs_dirs (add_item name category image randint w).2 = fs_dirs w
  /\ (fs_files (add_item name category image randint w).2 = fs_files w
      \/ exists data : bytes,
           fs_files (add_item name category image randint w).2 =
           <[("images/" +:+ SHA256.hexdigest data +:+ ".jpg") := image]> (fs_files w)).
Proof.
  destruct (has_nul image) eqn:Hnul.
  { pose proof (add_item_nul_byte name category image randint w Hnul) as Hrun.
    unfold POST_items, serve in Hrun. injection Hrun as _ ->. auto. }
  destruct (fs_files w !! string_of_bytes image) as [data|] eqn:Hdata.
  2:{ pose proof (add_item_not_a_path name category image randint w Hdata) as Hrun.
      unfold POST_items, serve in Hrun. injection Hrun as _ ->. auto. }
  rewrite (add_item_after_read name category image data randint w Hnul Hdata).
  cbv zeta.
  destruct (bool_decide (_ ∈ fs_dirs w)); [auto|].
  destruct (bool_decide ("images" ∈ fs_dirs w)); [|auto].
  destruct (db_items w); (split; [reflexivity|right; exists data; reflexivity]).
Qed.

Lemma startswith_images (s : string) : startswith ("images/" +:+ s) "images/" = true.
Proof.
  unfold startswith. rewrite !append_cons, append_nil_l.
  destruct s; reflexivity.
Qed.

Lemma image_missing_without_default_witness :
  GET_image "/srv/python" "missing.jpg" (World ∅ {[ "/srv/python/image" ]} None [] [])
  = internal_server_error.
Proof.
  apply (image_missing_without_default "/srv/python" "missing.jpg");
    vm_compute; reflexivity.
Defined.


Lemma two_uploads_two_rows_witness :
  exists row1 row2 : row,
    db_items
      (add_item "pen" "desk" (bytes_of_string "a") 7
         (add_item "pen" "desk" (bytes_of_string "a") 7
            (World {[ "a" := bytes_of_string "x" ]} {[ "images" ]}
               (Some [(SqlInt 7, SqlText "cup", SqlText "kitchen", SqlText "c.jpg")])
               [] [])).2).2
    = Some ([(SqlInt 7, SqlText "cup", SqlText "kitchen", SqlText "c.jpg")]
            ++ [row1; row2]).
Proof.
  apply (two_uploads_two_rows "pen" "desk" "pen" "desk"
           (bytes_of_string "a") (bytes_of_string "a") 7 7
           (World {[ "a" := bytes_of_string "x" ]} {[ "images" ]}
              (Some [(SqlInt 7, SqlText "cup", SqlText "kitchen", SqlText "c.jpg")])
              [] [])
           (Message "item received: pen") (Message "item received: pen"));
    vm_compute; reflexivity.
Defined.

(** ** Uploads and the image endpoint *)

Lemma prefix_nil (s : string) : String.prefix EmptyString s = true.
Proof. destruct s; reflexivity. Qed.

Lemma startswith_slash (s : string) :
  startswith s "/" = true -> exists s', s = String "/" s'.
Proof.
  unfold startswith. destruct s as [|c s]; [discriminate|].
  cbn [String.prefix]. destruct (ascii_dec "/" c) as [<-|_]; [|discriminate].
  intros _. by exists s.
Qed.

Lemma startswith_slash_cons (s : string) : startswith (String "/" s) "/" = true.
Proof. unfold startswith. cbn [String.prefix]. destruct s; reflexivity. Qed.

Lemma joinpath_absolute (a b : string) :
  startswith a "/" = true -> startswith (joinpath a b) "/" = true.
Proof.
  intros Ha. unfold joinpath. destruct (startswith b "/") eqn:Hb; [exact Hb|].
  destruct (startswith_slash a Ha) as [a' ->].
  destruct (endswith _ "/"); rewrite append_cons; apply startswith_slash_cons.
Qed.

Lemma absolute_not_under_images (p : string) :
  startswith p "/" = true -> startswith p "images/" = false.
Proof. intros Hp. destruct (startswith_slash p Hp) as [p' ->]. reflexivity. Qed.

(** The image endpoint looks at absolute paths only. *)
Lemma GET_image_ext (here s : string) (w1 w2 : world) :
  startswith here "/" = true ->
  fs_dirs w1 = fs_dirs w2 ->
  (forall p, startswith p "/" = true -> fs_files w1 !! p = fs_files w2 !! p) ->
  GET_image here s w1 = GET_image here s w2.
Proof.
  intros Hhere Hdirs Hfiles. unfold GET_image, serve.
  destruct (endswith s ".jpg") eqn:Hs.
  2:{ by rewrite !(get_image_bad_suffix here s _ Hs). }
  assert (Himages : startswith (images here) "/" = true)
    by (by apply joinpath_absolute).
  assert (Hex : exists_at w1 (joinpath (images here) s) =
                exists_at w2 (joinpath (images here) s)).
  { unfold exists_at. rewrite Hdirs, Hfiles; [reflexivity|].
    by apply joinpath_absolute. }
  destruct (exists_at w2 (joinpath (images here) s)) eqn:Hex2.
  - rewrite (get_image_found here s w1 Hs Hex), (get_image_found here s w2 Hs Hex2).
    cbn [respond fst snd]. rewrite Hfiles; [reflexivity|].
    by apply joinpath_absolute.
  - rewrite (get_image_missing here s w1 Hs Hex), (get_image_missing here s w2 Hs Hex2).
    cbn [respond fst snd]. rewrite Hfiles; [reflexivity|].
    by apply joinpath_absolute.
Qed.

(** X15: with main.py in an absolute directory, no create-item request,
    whatever its outcome, changes the answer of GET /image/... for any name:
    uploads are written under the relative directory images/, the endpoint
    reads the directory image next to main.py (paths taken as written). *)
Theorem uploads_not_served (here name category : string) (image : bytes)
  (randint : Z) (w : world) (s : string) :
  startswith here "/" = true ->
  GET_image here s (POST_items name category image randint w).2 =
  GET_image here s w.
Proof.
  intros Hhere. unfold POST_items, serve. cbn [snd].
  destruct (add_item_files name category image randint w) as [Hdirs Hfiles].
  apply GET_image_ext; [exact Hhere|exact Hdirs|].
  intros p Hp. destruct Hfiles as [->|[data ->]]; [reflexivity|].
  apply lookup_insert_ne. intros <-.
  apply absolute_not_under_images in Hp. by rewrite startswith_images in Hp.
Qed.

Lemma uploads_not_served_witness :
  GET_image "/srv/python" "2d711642b726b04401627ca9fbac32f5c8530fb1903cc4db02258717921a4881.jpg"
    (POST_items "pen" "desk" (bytes_of_string "a") 7
       (World {[ "a" := bytes_of_string "x" ]} {[ "images" ]} (Some []) [] [])).2
  = GET_image "/srv/python" "2d711642b726b04401627ca9fbac32f5c8530fb1903cc4db02258717921a4881.jpg"
      (World {[ "a" := bytes_of_string "x" ]} {[ "images" ]} (Some []) [] []).
Proof.
  apply (uploads_not_served "/srv/python" "pen" "desk" (bytes_of_string "a") 7).
  reflexivity.
Defined.

(** ** Searching with wildcards *)














(** ** What the served routes accept *)

Lemma served_routes_eq :
  served_routes =
  [Route "GET" "/" "root";
   Route "GET" "/items" "show_item";
   Route "POST" "/items" "add_item";
   Route "GET" "/search" "search_item";
   Route "GET" "/image/{items_image}" "get_image";
   Route "GET" "/item/{items_id}" "get_image"].
Proof. reflexivity. Qed.

Lemma dispatch_handles (routes : list route) (method p e : string) :
  dispatch routes method p = Handles e ->
  exists r, r ∈ routes /\ r_method r = method /\ r_endpoint r = e
            /\ path_matches (r_path r) p = true.
Proof.
  induction routes as [|r routes IH]; cbn [dispatch]; [discriminate|].
  destruct (path_matches (r_path r) p) eqn:Hpath.
  - destruct (String.eqb (r_method r) method) eqn:Hm.
    + intros [= <-]. apply String.eqb_eq in Hm.
      exists r. split; [left|]. done.
    + destruct (dispatch routes method p) as [e'| |] eqn:Hrest; try discriminate.
      intros [= <-]. destruct (IH eq_refl) as (r' & Hin & Hr').
      exists r'. split; [by right|exact Hr'].
  - intros Hrest. destruct (IH Hrest) as (r' & Hin & Hr').
    exists r'. split; [by right|exact Hr'].
Qed.

Lemma append_nil_r (a : string) : a +:+ EmptyString = a.
Proof. induction a as [|c a IH]; [reflexivity|]. by rewrite append_cons, IH. Qed.

Lemma append_assoc (a b c : string) : (a +:+ b) +:+ c = a +:+ (b +:+ c).
Proof. induction a as [|x a IH]; [reflexivity|]. by rewrite !append_cons, IH. Qed.

Lemma split_path_nonempty (p : string) : forall acc, split_path acc p <> [].
Proof.
  induction p as [|c p IH]; intros acc; cbn [split_path]; [discriminate|].
  destruct (Ascii.eqb c "/"); [discriminate|apply IH].
Qed.

Lemma join_split (p : string) :
  forall acc, join_slash (split_path acc p) = acc +:+ p.
Proof.
  induction p as [|c p IH]; intros acc; cbn [split_path].
  - cbn [join_slash]. by rewrite append_nil_r.
  - destruct (Ascii.eqb_spec c "/") as [->|_].
    + cbn [join_slash]. pose proof (IH EmptyString) as Hrest.
      destruct (split_path EmptyString p) as [|x l] eqn:Hsp;
        [by apply split_path_nonempty in Hsp|].
      rewrite Hrest. reflexivity.
    + rewrite IH, append_assoc. reflexivity.
Qed.

Lemma segments_match_literal (ts : list string) :
  Forall (fun t => is_param t = false) ts ->
  forall ss, segments_match ts ss = true -> ss = ts.
Proof.
  induction 1 as [|t ts Ht _ IH]; intros [|s ss]; cbn [segments_match];
    try discriminate; [reflexivity|].
  unfold segment_matches. rewrite Ht.
  intros [Hs Hss]%andb_true_iff. apply String.eqb_eq in Hs. by rewrite Hs, (IH ss Hss).
Qed.

(** A template without parameters is matched by itself only. *)
Lemma path_matches_literal (template p : string) :
  Forall (fun t => is_param t = false) (split_path EmptyString template) ->
  path_matches template p = true -> p = template.
Proof.
  intros Hlit Hm. unfold path_matches in Hm.
  apply (segments_match_literal _ Hlit) in Hm.
  rewrite <- (append_nil_l p), <- (append_nil_l template),
    <- (join_split p EmptyString), <- (join_split template EmptyString).
  by rewrite Hm.
Qed.

(** X20: the served application handles GET and POST requests only, and the
    one POST it handles is POST /items, by add_item: no request under PUT,
    DELETE or any other method reaches a handler, and no other path reaches
    the handler that writes. *)
Theorem served_methods (method p e : string) :
  dispatch served_routes method p = Handles e ->
  (method = "GET" /\ e <> "add_item")
  \/ (method = "POST" /\ p = "/items" /\ e = "add_item").
Proof.
  intros Hd. apply dispatch_handles in Hd as (r & Hin & Hm & He & Hpath).
  rewrite served_routes_eq in Hin.
  repeat (apply elem_of_cons in Hin as [->|Hin]);
    try (by apply elem_of_nil in Hin);
    cbn [r_method r_endpoint r_path] in *; subst;
    try (left; split; [reflexivity|discriminate]).
  right. split; [reflexivity|]. split; [|reflexivity].
  apply (path_matches_literal "/items" p); [|exact Hpath].
  repeat constructor.
Qed.

Lemma served_methods_witness :
  ("POST" = "GET" /\ "add_item" <> "add_item")
  \/ ("POST" = "POST" /\ "/items" = "/items" /\ "add_item" = "add_item").
Proof. apply (served_methods "POST" "/items" "add_item"). reflexivity. Defined.

(** ** What the image route hands to its handler *)

Lemma split_path_segment (s : string) :
  is_segment s = true -> forall acc, split_path acc s = [acc +:+ s].
Proof.
  induction s as [|c s IH]; intros Hs acc; cbn [split_path].
  - by rewrite append_nil_r.
  - cbn [is_segment] in Hs. apply andb_true_iff in Hs as [Hc Hs].
    apply negb_true_iff in Hc. rewrite Hc, (IH Hs), append_assoc. reflexivity.
Qed.

Lemma split_path_not_segment (s : string) :
  is_segment s = false ->
  forall acc, exists x y l, split_path acc s = x :: y :: l.
Proof.
  induction s as [|c s IH]; intros Hs acc; [discriminate|].
  cbn [split_path is_segment] in *.
  destruct (Ascii.eqb c "/").
  - destruct (split_path EmptyString s) as [|y l] eqn:Hsp;
      [by apply split_path_nonempty in Hsp|]. by exists acc, y, l.
  - apply IH. exact Hs.
Qed.

Lemma split_under_image (s : string) :
  split_path EmptyString ("/image/" +:+ s) =
  EmptyString :: "image" :: split_path EmptyString s.
Proof. rewrite !append_cons, append_nil_l. reflexivity. Qed.

Lemma image_template_matches (s : string) :
  path_matches "/image/{items_image}" ("/image/" +:+ s) =
  is_segment s && negb (String.eqb s EmptyString).
Proof.
  unfold path_matches. rewrite split_under_image.
  destruct (is_segment s) eqn:Hseg.
  - rewrite (split_path_segment s Hseg), append_nil_l. destruct s; reflexivity.
  - destruct (split_path_not_segment s Hseg EmptyString) as (x & y & l & ->).
    change (split_path EmptyString "/image/{items_image}")
      with [EmptyString; "image"; "{items_image}"].
    cbn [segments_match]. rewrite !andb_false_r. reflexivity.
Qed.

(** X21: a GET request for /image/s reaches get_image exactly when s is a
    non-empty name without a slash; any other path under /image/ is not
    found.  The handler therefore receives single path components only. *)
Theorem image_route_segments (s : string) :
  dispatch served_routes "GET" ("/image/" +:+ s) =
  if is_segment s && negb (String.eqb s EmptyString)
  then Handles "get_image" else NotFound.
Proof.
  rewrite served_routes_eq. cbn [dispatch r_path r_method r_endpoint].
  assert (Hroot : path_matches "/" ("/image/" +:+ s) = false)
    by (unfold path_matches; rewrite split_under_image; reflexivity).
  assert (Hitems : path_matches "/items" ("/image/" +:+ s) = false)
    by (unfold path_matches; rewrite split_under_image; reflexivity).
  assert (Hsearch : path_matches "/search" ("/image/" +:+ s) = false)
    by (unfold path_matches; rewrite split_under_image; reflexivity).
  assert (Hitem : path_matches "/item/{items_id}" ("/image/" +:+ s) = false)
    by (unfold path_matches; rewrite split_under_image; reflexivity).
  rewrite Hroot, Hitems, Hsearch, Hitem, image_template_matches.
  destruct (is_segment s && negb (String.eqb s EmptyString)); reflexivity.
Qed.

(** ** What a successful request logs *)

(** X23: a successful create-item appends exactly three records to the log,
    "Receive item: " followed by the name, by the category and by the image
    name, in that order, and calls print once, with the label, a line feed, a
    space and the digest: two lines of output, the second being the digest
    after a space. *)
Theorem create_item_logs (name category : string) (image : bytes)
  (randint : Z) (w : world) :
  (POST_items name category image randint w).1 =
    Response 200 (JMessage ("item received: " +:+ name)) ->
  exists data : bytes,
    fs_files w !! string_of_bytes image = Some data
    /\ log (POST_items name category image randint w).2 =
       log w ++ ["Receive item: " +:+ name;
                 "Receive item: " +:+ category;
                 "Receive item: " +:+ SHA256.hexdigest data +:+ ".jpg"]
    /\ stdout (POST_items name category image randint w).2 =
       stdout w ++ ["SHA256ハッシュ値：" +:+ String "010" EmptyString
                      +:+ " " +:+ SHA256.hexdigest data]
    /\ all_chars (fun c => negb (Ascii.eqb c "010")) (SHA256.hexdigest data) = true.
Proof.
  intros H1.
  apply post_items_ok_iff in H1 as (Hnul & data & Hdata & Hdir & Htarget & [t Ht]).
  exists data. split; [exact Hdata|].
  unfold POST_items, serve. cbn [fst snd].
  rewrite (add_item_after_read name category image data randint w Hnul Hdata).
  cbv zeta.
  rewrite (bool_decide_eq_false_2 _ Htarget), (bool_decide_eq_true_2 _ Hdir), Ht.
  cbn [snd log stdout with_items with_log with_files with_stdout].
  split; [reflexivity|]. split.
  - reflexivity.
  - destruct (hexdigest_chars data) as [_ Hhex]. revert Hhex.
    generalize (SHA256.hexdigest data). intros s.
    induction s as [|c s IH]; [reflexivity|]. cbn [all_chars].
    intros [Hc Hs]%andb_true_iff. rewrite (IH Hs), andb_true_r.
    apply negb_true_iff. rewrite ascii_eqb_code. apply N.eqb_neq.
    unfold is_hex_lower in Hc. cbv zeta in Hc.
    change (N_of_ascii "010") with 10%N. intros Heq. rewrite Heq in Hc.
    discriminate.
Qed.

Lemma create_item_logs_witness :
  exists data : bytes,
    fs_files (World {[ "a" := bytes_of_string "x" ]} {[ "images" ]} (Some []) [] [])
      !! string_of_bytes (bytes_of_string "a") = Some data
    /\ log (POST_items "pen" "desk" (bytes_of_string "a") 7
              (World {[ "a" := bytes_of_string "x" ]} {[ "images" ]} (Some []) [] [])).2
       = log (World {[ "a" := bytes_of_string "x" ]} {[ "images" ]} (Some []) [] [])
         ++ ["Receive item: " +:+ "pen";
             "Receive item: " +:+ "desk";
             "Receive item: " +:+ SHA256.hexdigest data +:+ ".jpg"]
    /\ stdout (POST_items "pen" "desk" (bytes_of_string "a") 7
                 (World {[ "a" := bytes_of_string "x" ]} {[ "images" ]} (Some []) [] [])).2
       = stdout (World {[ "a" := bytes_of_string "x" ]} {[ "images" ]} (Some []) [] [])
         ++ ["SHA256ハッシュ値：" +:+ String "010" EmptyString
               +:+ " " +:+ SHA256.hexdigest data]
    /\ all_chars (fun c => negb (Ascii.eqb c "010")) (SHA256.hexdigest data) = true.
Proof.
  apply (create_item_logs "pen" "desk" (bytes_of_string "a") 7
           (World {[ "a" := bytes_of_string "x" ]} {[ "images" ]} (Some []) [] [])).
  vm_compute. reflexivity.
Defined.

(** ** The suffix check *)

Lemma endswith_iff (s suffix : string) :
  endswith s suffix = true <-> exists pre, s = pre +:+ suffix.
Proof.
  split.
  - induction s as [|c s IH]; cbn [endswith].
    + rewrite orb_false_r. intros ->%String.eqb_eq. by exists EmptyString.
    + intros [->%String.eqb_eq|Hrest]%orb_true_iff; [by exists EmptyString|].
      destruct (IH Hrest) as [pre ->]. by exists (String c pre).
  - intros [pre ->]. apply endswith_app.
Qed.

Lemma GET_image_cases (here s : string) (w : world) :
  endswith s ".jpg" = true ->
  GET_image here s w = internal_server_error
  \/ exists data, GET_image here s w = Response 200 (Raw data).
Proof.
  intros Hs. unfold GET_image, serve.
  destruct (exists_at w (joinpath (images here) s)) eqn:Hex.
  - rewrite (get_image_found here s w Hs Hex). cbn [respond fst snd].
    destruct (fs_files w !! _); eauto.
  - rewrite (get_image_missing here s w Hs Hex). cbn [respond fst snd].
    destruct (fs_files w !! _); eauto.
Qed.

(** X24: GET /image/s is answered with status 400 exactly when s is not of
    the form <something>.jpg (the something may be empty); in every other
    case the status is 200 or 500. *)
Theorem image_400_iff_suffix (here s : string) (w : world) :
  (status (GET_image here s w) = 400 <-> ~ exists pre, s = pre +:+ ".jpg")
  /\ (status (GET_image here s w) = 400
      \/ status (GET_image here s w) = 200
      \/ status (GET_image here s w) = 500).
Proof.
  destruct (endswith s ".jpg") eqn:Hs.
  - assert (Hpre : exists pre, s = pre +:+ ".jpg") by (by apply endswith_iff).
    destruct (GET_image_cases here s w Hs) as [->|[data ->]]; cbn [status];
      (split; [split; [discriminate|by intros []]|auto]).
  - unfold GET_image, serve. rewrite (get_image_bad_suffix here s w Hs).
    cbn [respond fst status]. split; [|auto]. split; [|reflexivity].
    intros _ Hpre%endswith_iff. congruence.
Qed.
